(** * Iris ML service: the inference-serving core of [app/main.py]

    A shallow embedding of the FastAPI application: the two module globals
    [model] and [metadata], [load_model], and the handlers [health_check],
    [predict], [predict_batch] and [get_model_info].

    - Python floats are binary64 primitive floats.
    - The metadata global holds whatever [json.load] returned, so it is a
      JSON value; the Python value [None] is [JNull].
    - The model artifact is a duck-typed object with [predict] and
      [predict_proba]; it is a type class over the artifact's own state, so
      an artifact may answer differently from one call to the next.
    - Python exceptions are results: [Ret] or [Raise].  A handler either
      responds, aborts with an [HTTPException], or lets an exception escape;
      the server answers an escaped exception with status 500.
    - Strings are UTF-8 byte strings; Python indexes a string by code
      point.
    - Every call into the artifact is recorded in the ghost field
      [invocations] of the store.
    - Handlers are coroutines without an [await] in their body: each runs
      to completion on the event loop, so one handler is one step.
    - Logging is not modelled. *)

From Stdlib Require Import ZArith String DecimalString Floats Bool Lia.
From stdpp Require Import base list.

Open Scope string_scope.
Open Scope Z_scope.
Set Warnings "-register-all,-inexact-float".

(** ** Python results *)

Inductive exn : Type :=
| IndexError
| KeyError
| TypeError
| AttributeError
| ValidationError
| OtherError (msg : string)
| ValueError.

Inductive pyres (X : Type) : Type :=
| Ret (x : X)
| Raise (e : exn).
Arguments Ret {X} x.
Arguments Raise {X} e.

Definition pybind {X Y : Type} (c : pyres X) (k : X -> pyres Y) : pyres Y :=
  match c with
  | Ret x => k x
  | Raise e => Raise e
  end.

Notation "'let*' x ':=' c 'in' k" := (pybind c (fun x => k))
  (at level 10, x name, c at level 100, k at level 200).

(** ** JSON values, as [json.load] builds them *)

Inductive json : Type :=
| JNull
| JBool (b : bool)
| JInt (z : Z)
| JFloat (f : float)
| JStr (s : string)
| JArr (l : list json)
| JObj (kvs : list (string * json)).

(** [bool(v)] *)
Definition truthy (v : json) : bool :=
  match v with
  | JNull => false
  | JBool b => b
  | JInt z => negb (z =? 0)
  | JFloat f => negb (PrimFloat.eqb f 0%float)
  | JStr s => negb (String.eqb s "")
  | JArr l => match l with [] => false | _ => true end
  | JObj kvs => match kvs with [] => false | _ => true end
  end.

(** Lookup in a dict, kept as the list of its items. *)
Fixpoint assoc (k : string) (kvs : list (string * json)) : option json :=
  match kvs with
  | [] => None
  | (k', v) :: rest => if String.eqb k k' then Some v else assoc k rest
  end.

Definition is_JStr (k : string) (v : json) : bool :=
  match v with
  | JStr s => String.eqb k s
  | _ => false
  end.

(** [k in v] for a string [k]: key test on a dict, element test on a list,
    substring test on a string; other values are not iterable. *)
Definition py_contains (k : string) (v : json) : pyres bool :=
  match v with
  | JObj kvs => Ret (match assoc k kvs with Some _ => true | None => false end)
  | JArr l => Ret (existsb (is_JStr k) l)
  | JStr s => Ret (match String.index 0 k s with Some _ => true | None => false end)
  | _ => Raise TypeError
  end.

(** [v[k]] for a string [k]. *)
Definition py_getitem_str (v : json) (k : string) : pyres json :=
  match v with
  | JObj kvs => match assoc k kvs with Some x => Ret x | None => Raise KeyError end
  | _ => Raise TypeError
  end.

(** [d.get(k)] on a dict: [None] for an absent key. *)
Definition dict_get (kvs : list (string * json)) (k : string) : json :=
  match assoc k kvs with
  | Some x => x
  | None => JNull
  end.

(** [v.get(k)]: only a dict has the method. *)
Definition py_get (v : json) (k : string) : pyres json :=
  match v with
  | JObj kvs => Ret (dict_get kvs k)
  | _ => Raise AttributeError
  end.

(** [l[i]] on a sequence: a negative index counts from the end. *)
Definition py_index {X : Type} (l : list X) (i : Z) : pyres X :=
  let n := Z.of_nat (length l) in
  let j := if i <? 0 then i + n else i in
  if (0 <=? j) && (j <? n) then
    match l !! Z.to_nat j with
    | Some x => Ret x
    | None => Raise IndexError
    end
  else Raise IndexError.

(** A UTF-8 continuation byte, [10xxxxxx]. *)
Definition is_continuation (c : Ascii.ascii) : bool :=
  match c with
  | Ascii.Ascii _ _ _ _ _ _ b6 b7 => b7 && negb b6
  end.

(** The bytes of [s] grouped by code point: the continuation bytes that
    open [s], and then each lead byte with the continuation bytes after it. *)
Fixpoint code_points (s : string) : string * list string :=
  match s with
  | EmptyString => (EmptyString, [])
  | String c rest =>
      let (pending, groups) := code_points rest in
      if is_continuation c then (String c pending, groups)
      else (EmptyString, String c pending :: groups)
  end.

(** The characters of a string, as [s[i]] sees them: one string per code
    point. *)
Definition chars (s : string) : list json :=
  let (pending, groups) := code_points s in
  map JStr (match pending with
            | EmptyString => groups
            | _ => pending :: groups
            end).

(** [v[i]] for an integer [i] coming from numpy. *)
Definition py_getitem_int (v : json) (i : Z) : pyres json :=
  match v with
  | JArr l => py_index l i
  | JStr s => py_index (chars s) i
  | JObj _ => Raise KeyError
  | _ => Raise TypeError
  end.

(** [str(i)] for an integer. *)
Definition str_of_int (i : Z) : string := NilZero.string_of_int (Z.to_int i).

(** ** Request and response bodies *)

(** [IrisFeatures] after validation. *)
Record IrisFeatures : Type := {
  sepal_length : float;
  sepal_width : float;
  petal_length : float;
  petal_width : float
}.

Record PredictionResponse : Type := {
  prediction : string;
  probability : float;
  features : list (string * float)
}.

Record HealthResponse : Type := {
  status : string;
  model_loaded : bool;
  model_info : option (list (string * json))
}.

(** One dict of the [predictions] list of a batch response.  The batch
    handler declares no response model, so its label is whatever
    [target_names] held. *)
Record BatchItem : Type := {
  sample_id : nat;
  item_prediction : json;
  item_probability : float;
  item_features : list (string * float)
}.

Record ModelParameters : Type := {
  n_estimators : json;
  max_depth : json
}.

Record ModelInfo : Type := {
  model_type : json;
  feature_names : json;
  target_names : json;
  model_parameters : ModelParameters
}.

(** What the request validation reports about one field: where (the item's
    position in a batch body, the field's name) and why. *)
Inductive field_fault : Type :=
| Missing
| NotGe0 (value : float).

Record field_error : Type := {
  err_item : option nat;
  err_field : string;
  err_fault : field_fault
}.

(** The [detail] of an [HTTPException]: a literal, or the f-string
    [prefix + str(e)] kept symbolic in the exception, or the error list of a
    rejected request body. *)
Inductive detail : Type :=
| Text (s : string)
| Caused (prefix : string) (e : exn)
| Errors (errs : list field_error).

Record HTTPException : Type := {
  status_code : Z;
  http_detail : detail
}.

Inductive reply (X : Type) : Type :=
| Respond (x : X)
| Abort (h : HTTPException)
| Escape (e : exn).
Arguments Respond {X} x.
Arguments Abort {X} h.
Arguments Escape {X} e.

(** [try: ... except Exception as e: raise HTTPException(500, prefix + str(e))] *)
Definition guard500 {X : Type} (prefix : string) (c : pyres X) : reply X :=
  match c with
  | Ret x => Respond x
  | Raise e => Abort {| status_code := 500; http_detail := Caused prefix e |}
  end.

(** The input of the artifact: one row of four numbers per sample. *)
Abbreviation matrix := (list (list float)).

(** ** The model artifact *)

(** The capability the handlers use: [predict] and [predict_proba] on a
    matrix.  Each may raise, and each may change the artifact. *)
Class Artifact (A : Type) : Type := {
  model_predict : A -> matrix -> pyres (list Z) * A;
  model_predict_proba : A -> matrix -> pyres (list (list float)) * A
}.

Inductive Call : Type :=
| CallPredict (X : matrix)
| CallPredictProba (X : matrix).

(** ** The module globals and what is on disk *)

Section Service.
Context {A : Type} {artifact : Artifact A}.

(** [model] is [None] until an artifact is loaded, and again after a load
    whose [joblib.load] handed back [None]. *)
Record State : Type := {
  model : option A;
  metadata : json;
  invocations : list Call
}.

(** [model is not None] *)
Definition loaded (s : State) : bool :=
  match model s with
  | Some _ => true
  | None => false
  end.

Definition initial : State :=
  {| model := None; metadata := JNull; invocations := [] |}.

(** What [load_model] finds at [models/iris_model.joblib] and
    [models/model_metadata.json]: whether each path exists, and what
    [joblib.load] and [open] + [json.load] give.  [joblib.load] returns the
    pickled object, which is an artifact or [None]. *)
Record Disk : Type := {
  model_path_exists : bool;
  joblib_load : pyres (option A);
  metadata_path_exists : bool;
  json_load : pyres json
}.

Definition set_model (m : option A) (s : State) : State :=
  {| model := m; metadata := metadata s; invocations := invocations s |}.

Definition set_metadata (j : json) (s : State) : State :=
  {| model := model s; metadata := j; invocations := invocations s |}.

(** [load_model()]: the assignment to [model] happens before the metadata
    is read, inside the same [try]. *)
Definition load_model (d : Disk) (s : State) : bool * State :=
  if negb (model_path_exists d) then (false, s)
  else
    match joblib_load d with
    | Raise _ => (false, s)
    | Ret m =>
        let s1 := set_model m s in
        if metadata_path_exists d then
          match json_load d with
          | Raise _ => (false, s1)
          | Ret j => (true, set_metadata j s1)
          end
        else (true, s1)
    end.

(** ** Code that runs against the store and may raise *)

Definition M (X : Type) : Type := State -> pyres X * State.

Definition mbind {X Y : Type} (c : M X) (k : X -> M Y) : M Y :=
  fun s =>
    match c s with
    | (Ret x, s') => k x s'
    | (Raise e, s') => (Raise e, s')
    end.

Definition lift {X : Type} (r : pyres X) : M X := fun s => (r, s).

Definition read_metadata : M json := fun s => (Ret (metadata s), s).

Notation "'let!' x ':=' c 'in' k" := (mbind c (fun x => k))
  (at level 10, x name, c at level 100, k at level 200).

(** [model.predict(X)] on the global [model]. *)
Definition call_predict (X : matrix) : M (list Z) :=
  fun s =>
    match model s with
    | None => (Raise AttributeError, s)
    | Some a =>
        let (r, a') := model_predict a X in
        (r, {| model := Some a'; metadata := metadata s;
               invocations := invocations s ++ [CallPredict X] |})
    end.

(** [model.predict_proba(X)] on the global [model]. *)
Definition call_predict_proba (X : matrix) : M (list (list float)) :=
  fun s =>
    match model s with
    | None => (Raise AttributeError, s)
    | Some a =>
        let (r, a') := model_predict_proba a X in
        (r, {| model := Some a'; metadata := metadata s;
               invocations := invocations s ++ [CallPredictProba X] |})
    end.

(** ** Label resolution and response construction *)

(** Lines 144-147 and 198-201:
    [if metadata and "target_names" in metadata:
         predicted_class = metadata["target_names"][prediction]
     else:
         predicted_class = f"class_{prediction}"] *)
Definition predicted_class (md : json) (prediction : Z) : pyres json :=
  let* named := (if truthy md then py_contains "target_names" md else Ret false) in
  if (named : bool) then
    let* names := py_getitem_str md "target_names" in
    py_getitem_int names prediction
  else Ret (JStr ("class_" ++ str_of_int prediction)).

Definition feature_values (f : IrisFeatures) : list float :=
  [sepal_length f; sepal_width f; petal_length f; petal_width f].

Definition feature_dict (f : IrisFeatures) : list (string * float) :=
  [("sepal_length", sepal_length f);
   ("sepal_width", sepal_width f);
   ("petal_length", petal_length f);
   ("petal_width", petal_width f)].

(** [PredictionResponse(prediction=..., probability=..., features=...)]:
    the field [prediction: str] takes a string only. *)
Definition mkPredictionResponse (label : json) (p : float)
    (fd : list (string * float)) : pyres PredictionResponse :=
  match label with
  | JStr name => Ret {| prediction := name; probability := p; features := fd |}
  | _ => Raise ValidationError
  end.

(** ** [POST /predict] *)

(** The body of the [try] in [predict]. *)
Definition predict_try (f : IrisFeatures) : M PredictionResponse :=
  let X := [feature_values f] in
  let! predictions := call_predict X in
  let! prediction := lift (py_index predictions 0) in
  let! proba := call_predict_proba X in
  let! probabilities := lift (py_index proba 0) in
  let! md := read_metadata in
  let! label := lift (predicted_class md prediction) in
  let! p := lift (py_index probabilities prediction) in
  lift (mkPredictionResponse label p (feature_dict f)).

Definition predict (f : IrisFeatures) (s : State)
    : reply PredictionResponse * State :=
  match model s with
  | None =>
      (Abort {| status_code := 503; http_detail := Text "Model not loaded" |}, s)
  | Some _ =>
      let (r, s') := predict_try f s in
      (guard500 "Prediction failed: " r, s')
  end.

(** ** [POST /predict_batch] *)

(** The loop [for i, (pred, prob) in enumerate(zip(predictions,
    probabilities))], started at index [i]. *)
Fixpoint format_results (md : json) (features_list : list IrisFeatures)
    (i : nat) (rows : list (Z * list float)) : pyres (list BatchItem) :=
  match rows with
  | [] => Ret []
  | (pred, prob) :: rest =>
      let* label := predicted_class md pred in
      let* p := py_index prob pred in
      let* f := py_index features_list (Z.of_nat i) in
      let* results := format_results md features_list (S i) rest in
      Ret ({| sample_id := i; item_prediction := label;
              item_probability := p; item_features := feature_dict f |}
           :: results)
  end.

(** The body of the [try] in [predict_batch]. *)
Definition predict_batch_try (features_list : list IrisFeatures)
    : M (list BatchItem) :=
  let X := map feature_values features_list in
  let! predictions := call_predict X in
  let! probabilities := call_predict_proba X in
  let! md := read_metadata in
  lift (format_results md features_list 0 (zip predictions probabilities)).

Definition predict_batch (features_list : list IrisFeatures) (s : State)
    : reply (list BatchItem) * State :=
  match model s with
  | None =>
      (Abort {| status_code := 503; http_detail := Text "Model not loaded" |}, s)
  | Some _ =>
      let (r, s') := predict_batch_try features_list s in
      (guard500 "Batch prediction failed: " r, s')
  end.

(** ** [GET /health] and [GET /model_info] *)

Definition escape {X : Type} (c : pyres X) : reply X :=
  match c with
  | Ret x => Respond x
  | Raise e => Escape e
  end.

Definition health_check (s : State) : reply HealthResponse * State :=
  let md := metadata s in
  let info :=
    if truthy md then
      let* mt := py_get md "model_type" in
      let* fn := py_get md "feature_names" in
      let* tn := py_get md "target_names" in
      Ret (Some [("model_type", mt); ("feature_names", fn); ("target_names", tn)])
    else Ret None in
  (escape (let* model_info := info in
           Ret {| status := if loaded s then "healthy" else "unhealthy";
                  model_loaded := loaded s;
                  model_info := model_info |}), s).

Definition get_model_info (s : State) : reply ModelInfo * State :=
  match metadata s with
  | JNull =>
      (Abort {| status_code := 503;
                http_detail := Text "Model metadata not available" |}, s)
  | md =>
      (escape (let* mt := py_get md "model_type" in
               let* fn := py_get md "feature_names" in
               let* tn := py_get md "target_names" in
               let* ne := py_get md "n_estimators" in
               let* dp := py_get md "max_depth" in
               Ret {| model_type := mt; feature_names := fn;
                      target_names := tn;
                      model_parameters :=
                        {| n_estimators := ne; max_depth := dp |} |}), s)
  end.

(** ** Request validation at the boundary *)

(** A request item before validation: each field with the number it
    carries, or [None] when the field is missing. *)
Record RawFeatures : Type := {
  raw_sepal_length : option float;
  raw_sepal_width : option float;
  raw_petal_length : option float;
  raw_petal_width : option float
}.

(** [float = Field(..., ge=0)]: required, and not below zero. *)
Definition check_field (item : option nat) (name : string) (v : option float)
    : list field_error :=
  match v with
  | None => [{| err_item := item; err_field := name; err_fault := Missing |}]
  | Some x =>
      if PrimFloat.leb 0%float x then []
      else [{| err_item := item; err_field := name; err_fault := NotGe0 x |}]
  end.

Definition field_errors (item : option nat) (raw : RawFeatures) : list field_error :=
  check_field item "sepal_length" (raw_sepal_length raw)
  ++ check_field item "sepal_width" (raw_sepal_width raw)
  ++ check_field item "petal_length" (raw_petal_length raw)
  ++ check_field item "petal_width" (raw_petal_width raw).

Definition validate (item : option nat) (raw : RawFeatures)
    : list field_error + IrisFeatures :=
  match field_errors item raw,
        raw_sepal_length raw, raw_sepal_width raw,
        raw_petal_length raw, raw_petal_width raw with
  | [], Some a, Some b, Some c, Some d =>
      inr {| sepal_length := a; sepal_width := b;
             petal_length := c; petal_width := d |}
  | errs, _, _, _, _ => inl errs
  end.

(** Validation of a list body: every item is checked and the errors of all
    items are reported together. *)
Fixpoint validate_list (i : nat) (raws : list RawFeatures)
    : list field_error + list IrisFeatures :=
  match raws with
  | [] => inr []
  | raw :: rest =>
      match validate (Some i) raw, validate_list (S i) rest with
      | inr f, inr fs => inr (f :: fs)
      | inl e, inr _ => inl e
      | inr _, inl es => inl es
      | inl e, inl es => inl (e ++ es)%list
      end
  end.

Definition unprocessable {X : Type} (errs : list field_error) : reply X :=
  Abort {| status_code := 422; http_detail := Errors errs |}.

(** The numbers an item carries. *)
Definition present (raw : RawFeatures) : list float :=
  omap id [raw_sepal_length raw; raw_sepal_width raw;
           raw_petal_length raw; raw_petal_width raw].

Definition has_missing (raw : RawFeatures) : bool :=
  match raw_sepal_length raw, raw_sepal_width raw,
        raw_petal_length raw, raw_petal_width raw with
  | Some _, Some _, Some _, Some _ => false
  | _, _, _, _ => true
  end.

(** The numbers the error report of an item echoes as [input]: a missing
    field echoes the item it is missing from, with every number the item
    carries; a field that fails [ge=0] echoes its own value. *)
Definition echoed (raw : RawFeatures) : list float :=
  ((if has_missing raw then present raw else [])
   ++ filter (fun x => PrimFloat.leb 0%float x = false) (present raw))%list.

(** The 422 answer is rendered as JSON with [allow_nan=False]: an infinite
    or NaN number in the report raises [ValueError] in the rendering, which
    escapes. *)
Definition reject {X : Type} (errs : list field_error) (echo : list float)
    : reply X :=
  if forallb PrimFloat.is_finite echo then unprocessable errs
  else Escape ValueError.

(** The route [POST /predict]: the body is validated against
    [IrisFeatures] before the handler is called. *)
Definition post_predict (raw : RawFeatures) (s : State)
    : reply PredictionResponse * State :=
  match validate None raw with
  | inl errs => (reject errs (echoed raw), s)
  | inr f => predict f s
  end.

(** The route [POST /predict_batch], with a body of type
    [List[IrisFeatures]]. *)
Definition post_predict_batch (raws : list RawFeatures) (s : State)
    : reply (list BatchItem) * State :=
  match validate_list 0 raws with
  | inl errs => (reject errs (flat_map echoed raws), s)
  | inr fs => predict_batch fs s
  end.

(** ** Sequences of operations *)

Inductive op : Type :=
| OpLoad (d : Disk)
| OpPredict (raw : RawFeatures)
| OpPredictBatch (raws : list RawFeatures)
| OpHealth
| OpModelInfo.

Definition step (o : op) (s : State) : State :=
  match o with
  | OpLoad d => snd (load_model d s)
  | OpPredict raw => snd (post_predict raw s)
  | OpPredictBatch raws => snd (post_predict_batch raws s)
  | OpHealth => snd (health_check s)
  | OpModelInfo => snd (get_model_info s)
  end.

Definition run (ops : list op) (s : State) : State :=
  fold_left (fun s o => step o s) ops s.

(** A load whose [joblib.load] does not hand back [None]. *)
Definition loads_object (d : Disk) : bool :=
  match joblib_load d with
  | Ret None => false
  | _ => true
  end.

Definition object_op (o : op) : bool :=
  match o with
  | OpLoad d => loads_object d
  | _ => true
  end.

(** The states the service gets to when no artifact file unpickles to
    [None]. *)
Definition object_reachable (s : State) : Prop :=
  exists ops, forallb object_op ops = true /\ s = run ops initial.

End Service.

Arguments State A : clear implicits.
Arguments Disk A : clear implicits.
Arguments op A : clear implicits.

(** ** Properties of artifacts, metadata and requests used as hypotheses *)

Section ArtifactProperties.
Context {A : Type} {artifact : Artifact A}.

(** The artifact's answers are functions of the input matrix: they do not
    depend on the artifact's state. *)
Definition deterministic_artifact : Prop :=
  forall (a a' : A) (X : matrix),
    fst (model_predict a X) = fst (model_predict a' X) /\
    fst (model_predict_proba a X) = fst (model_predict_proba a' X).

(** A batch call answers, row by row, what a single-row call answers. *)
Definition rowwise_artifact : Prop :=
  forall (a a' : A) (X : matrix) (i : nat) (row : list float),
    X !! i = Some row ->
    (forall ps, fst (model_predict a X) = Ret ps ->
       exists q rest,
         fst (model_predict a' [row]) = Ret (q :: rest) /\ ps !! i = Some q) /\
    (forall pp, fst (model_predict_proba a X) = Ret pp ->
       exists d rest,
         fst (model_predict_proba a' [row]) = Ret (d :: rest) /\ pp !! i = Some d).

(** The artifact answers with one class index and one probability row per
    input row. *)
Definition row_per_row : Prop :=
  forall (a : A) (X : matrix),
    (forall ps, fst (model_predict a X) = Ret ps -> length ps = length X) /\
    (forall pp, fst (model_predict_proba a X) = Ret pp -> length pp = length X).

Definition unit_interval (p : float) : Prop :=
  PrimFloat.leb 0%float p = true /\ PrimFloat.leb p 1%float = true.

(** Every entry of every probability matrix of the artifact is in [0, 1]. *)
Definition proba_in_unit : Prop :=
  forall (a : A) (X : matrix) (pp : list (list float)),
    fst (model_predict_proba a X) = Ret pp ->
    Forall (Forall unit_interval) pp.

End ArtifactProperties.

(** Metadata under which the handlers take the [else] branch: absent or
    empty metadata, or a dict without the key. *)
Definition lacks_target_names (md : json) : Prop :=
  truthy md = false \/
  exists kvs, md = JObj kvs /\ assoc "target_names" kvs = None.

(** Metadata that is a dict whose [target_names] is the list [names]. *)
Definition has_target_names (md : json) (names : list json) : Prop :=
  exists kvs, md = JObj kvs /\ assoc "target_names" kvs = Some (JArr names).

(** Metadata typed as the trainer writes it: [target_names], when the
    key is there, is a list of strings. *)
Definition string_target_names (md : json) : Prop :=
  forall kvs v,
    md = JObj kvs -> assoc "target_names" kvs = Some v ->
    exists names, v = JArr (map JStr names).

(** A request field that is missing or carries a number below zero. *)
Definition bad_field (v : option float) : Prop :=
  v = None \/ exists x, v = Some x /\ PrimFloat.ltb x 0%float = true.

Definition bad_request (raw : RawFeatures) : Prop :=
  bad_field (raw_sepal_length raw) \/ bad_field (raw_sepal_width raw) \/
  bad_field (raw_petal_length raw) \/ bad_field (raw_petal_width raw).

(** A request item all of whose numbers are finite. *)
Definition finite_body (raw : RawFeatures) : bool :=
  forallb PrimFloat.is_finite (present raw).

(** The shape of the store that loads keep when they read artifacts:
    empty, or with an artifact. *)
Definition artifact_first {A : Type} (s : State A) : Prop :=
  (model s = None /\ metadata s = JNull) \/ exists a, model s = Some a.

(** ** Concrete artifacts and data *)

(** An artifact that replays stored outputs whatever the input, like a mock
    with fixed return values. *)
Record Canned : Type := {
  canned_predict : pyres (list Z);
  canned_proba : pyres (list (list float))
}.

#[export] Instance canned_artifact : Artifact Canned := {|
  model_predict a _ := (canned_predict a, a);
  model_predict_proba a _ := (canned_proba a, a)
|}.

(** A two-class classifier that thresholds the petal length of each row;
    its state counts the calls it has served. *)
Record Threshold : Type := { served : nat }.

Definition threshold_class (row : list float) : Z :=
  match row !! 2%nat with
  | Some pl => if PrimFloat.ltb pl 2.5%float then 0 else 1
  | None => 0
  end.

Definition threshold_proba (row : list float) : list float :=
  if threshold_class row =? 0 then [1%float; 0%float] else [0%float; 1%float].

#[export] Instance threshold_artifact : Artifact Threshold := {|
  model_predict a X := (Ret (map threshold_class X), {| served := S (served a) |});
  model_predict_proba a X := (Ret (map threshold_proba X), {| served := S (served a) |})
|}.

(** An artifact whose answer depends on how often it was asked. *)
Record Flip : Type := { flipped : bool }.

#[export] Instance flip_artifact : Artifact Flip := {|
  model_predict a X :=
    (Ret (map (fun _ => if flipped a then 1 else 0) X), {| flipped := negb (flipped a) |});
  model_predict_proba a X :=
    (Ret (map (fun _ => [0.5%float; 0.5%float]) X), a)
|}.

(** The metadata file the trainer writes ([save_model] in
    [trainer/train_model.py]). *)
Definition iris_metadata : json :=
  JObj [("feature_names",
         JArr [JStr "sepal length (cm)"; JStr "sepal width (cm)";
               JStr "petal length (cm)"; JStr "petal width (cm)"]);
        ("target_names", JArr [JStr "setosa"; JStr "versicolor"; JStr "virginica"]);
        ("model_type", JStr "RandomForestClassifier");
        ("n_estimators", JInt 100);
        ("max_depth", JInt 10)].

Definition setosa_sample : IrisFeatures :=
  {| sepal_length := 5.1; sepal_width := 3.5; petal_length := 1.4; petal_width := 0.2 |}.

Definition versicolor_sample : IrisFeatures :=
  {| sepal_length := 6.3; sepal_width := 3.3; petal_length := 4.7; petal_width := 1.6 |}.

(** A mock artifact that always answers class 0 for one row. *)
Definition mock : Canned :=
  {| canned_predict := Ret [0];
     canned_proba := Ret [[1%float; 0%float; 0%float]] |}.

(** A models directory with the artifact file and no metadata file. *)
Definition artifact_only : Disk Canned :=
  {| model_path_exists := true;
     joblib_load := Ret (Some mock);
     metadata_path_exists := false;
     json_load := Raise (OtherError "No such file or directory") |}.

(** A models directory whose metadata file does not parse. *)
Definition broken_metadata : Disk Canned :=
  {| model_path_exists := true;
     joblib_load := Ret (Some mock);
     metadata_path_exists := true;
     json_load := Raise (OtherError "Expecting value") |}.

(** A models directory as the trainer leaves it. *)
Definition trained (m : Canned) : Disk Canned :=
  {| model_path_exists := true;
     joblib_load := Ret (Some m);
     metadata_path_exists := true;
     json_load := Ret iris_metadata |}.

(** A models directory whose artifact file holds a pickled [None], next to
    the trainer's metadata. *)
Definition none_artifact : Disk Canned :=
  {| model_path_exists := true;
     joblib_load := Ret None;
     metadata_path_exists := true;
     json_load := Ret iris_metadata |}.

(** Request bodies with a field of minus infinity (JSON [-1e400]). *)
Definition infinite_request : RawFeatures :=
  {| raw_sepal_length := Some neg_infinity; raw_sepal_width := Some 3.5%float;
     raw_petal_length := Some 1.4%float; raw_petal_width := Some 0.2%float |}.

(** A models directory without the artifact file. *)
Definition untrained : Disk Canned :=
  {| model_path_exists := false;
     joblib_load := Raise (OtherError "No such file or directory");
     metadata_path_exists := false;
     json_load := Raise (OtherError "No such file or directory") |}.

(** A store whose artifact answers class 3 while the metadata names three
    classes. *)
Definition fourth_class_store : State Canned :=
  {| model := Some {| canned_predict := Ret [3];
                      canned_proba :=
                        Ret [[0.25%float; 0.25%float; 0.25%float; 0.25%float]] |};
     metadata := iris_metadata;
     invocations := [] |}.

(** A store whose artifact answers one row whatever it is asked. *)
Definition one_row_store : State Canned :=
  {| model := Some mock; metadata := iris_metadata; invocations := [] |}.

(** A store with the threshold classifier and the trainer's metadata. *)
Definition threshold_store : State Threshold :=
  {| model := Some {| served := 0 |}; metadata := iris_metadata;
     invocations := [] |}.

(** A store with the flipping artifact and no metadata. *)
Definition flip_store : State Flip :=
  {| model := Some {| flipped := false |}; metadata := JNull;
     invocations := [] |}.

(** A store whose metadata has the model type only. *)
Definition sparse_store : State Threshold :=
  {| model := Some {| served := 0 |};
     metadata := JObj [("model_type", JStr "RandomForestClassifier")];
     invocations := [] |}.

(** The request bodies of [test_predict_invalid_input] and
    [test_predict_missing_fields]. *)
Definition negative_request : RawFeatures :=
  {| raw_sepal_length := Some (-1)%float; raw_sepal_width := Some 3.5%float;
     raw_petal_length := Some 1.4%float; raw_petal_width := Some 0.2%float |}.

Definition incomplete_request : RawFeatures :=
  {| raw_sepal_length := Some 5.1%float; raw_sepal_width := Some 3.5%float;
     raw_petal_length := None; raw_petal_width := None |}.

Definition raw_of (f : IrisFeatures) : RawFeatures :=
  {| raw_sepal_length := Some (sepal_length f);
     raw_sepal_width := Some (sepal_width f);
     raw_petal_length := Some (petal_length f);
     raw_petal_width := Some (petal_width f) |}.

(** ** The rest of the application and the trainer's metadata *)

Section Startup.
Context {A : Type} {artifact : Artifact A}.

(** [startup_event()]: one call of [load_model], whose result is dropped. *)
Definition startup_event (d : Disk A) (s : State A) : State A :=
  snd (load_model d s).

(** [root()] *)
Definition root (s : State A) : reply (list (string * string)) * State A :=
  (Respond [("message", "Iris ML Service"); ("version", "1.0.0");
            ("docs", "/docs")], s).

(** The operations that are requests, not loads. *)
Definition is_request (o : op A) : bool :=
  match o with
  | OpLoad _ => false
  | _ => true
  end.

(** The calls [predict_batch] makes on a matrix when [model.predict]
    answers [r]: [predict_proba] is only reached when [predict] returned. *)
Definition batch_calls (X : matrix) (r : pyres (list Z)) : list Call :=
  match r with
  | Ret _ => [CallPredict X; CallPredictProba X]
  | Raise _ => [CallPredict X]
  end.

(** The calls [predict] makes: [predict_proba] is only reached when
    [predict] returned and its answer has a row 0. *)
Definition single_calls (X : matrix) (r : pyres (list Z)) : list Call :=
  match (let* ps := r in py_index ps 0) with
  | Ret _ => [CallPredict X; CallPredictProba X]
  | Raise _ => [CallPredict X]
  end.

End Startup.

(** The dict [save_model] dumps to [model_metadata.json]
    ([trainer/train_model.py], lines 94-100), for name lists already turned
    into Python lists of strings, and the two hyperparameters of the
    classifier ([max_depth] may be [None]). *)
Definition save_model_metadata (feature_names target_names : list string)
    (n_estimators : Z) (max_depth : option Z) : json :=
  JObj [("feature_names", JArr (map JStr feature_names));
        ("target_names", JArr (map JStr target_names));
        ("model_type", JStr "RandomForestClassifier");
        ("n_estimators", JInt n_estimators);
        ("max_depth", match max_depth with Some d => JInt d | None => JNull end)].

(** An item all of whose fields pass [ge=0]. *)
Definition nonnegative (f : IrisFeatures) : Prop :=
  PrimFloat.leb 0%float (sepal_length f) = true /\
  PrimFloat.leb 0%float (sepal_width f) = true /\
  PrimFloat.leb 0%float (petal_length f) = true /\
  PrimFloat.leb 0%float (petal_width f) = true.

(** The errors of all items of a list body, in item order, the first item
    numbered [i]. *)
Fixpoint list_errors (i : nat) (raws : list RawFeatures) : list field_error :=
  match raws with
  | [] => []
  | raw :: rest => (field_errors (Some i) raw ++ list_errors (S i) rest)%list
  end.

(** A JSON value that is not an object. *)
Definition not_object (v : json) : Prop :=
  match v with
  | JObj _ => False
  | _ => True
  end.

(** A directory whose metadata file holds a JSON list. *)
Definition list_metadata : Disk Canned :=
  {| model_path_exists := true;
     joblib_load := Ret (Some mock);
     metadata_path_exists := true;
     json_load := Ret (JArr [JStr "setosa"; JStr "versicolor"]) |}.

(** An artifact whose [predict] raises. *)
Definition failing_store : State Canned :=
  {| model := Some {| canned_predict := Raise (OtherError "bad input shape");
                      canned_proba := Ret [] |};
     metadata := iris_metadata; invocations := [] |}.

(** An artifact that answers two rows whatever it is asked. *)
Definition two_row_store : State Canned :=
  {| model := Some {| canned_predict := Ret [0; 1];
                      canned_proba := Ret [[1%float; 0%float];
                                           [0%float; 1%float]] |};
     metadata := iris_metadata; invocations := [] |}.

(** A request with every field zero ([test_predict_with_zero_values]). *)
Definition zero_sample : IrisFeatures :=
  {| sepal_length := 0; sepal_width := 0; petal_length := 0; petal_width := 0 |}.

(** ** Proof steps for the handlers *)

(** Unfold a handler down to the artifact's calls. *)
Ltac unfold_handlers :=
  unfold predict, predict_try, predict_batch, predict_batch_try,
    mbind, lift, read_metadata, call_predict, call_predict_proba in *.

(** Split on the next result the handler inspects. *)
Ltac case_call :=
  match goal with
  | |- context [model_predict ?a ?X] =>
      let r := fresh "r" in let a' := fresh "a" in
      destruct (model_predict a X) as [[r|?] a']; simpl
  | |- context [model_predict_proba ?a ?X] =>
      let r := fresh "r" in let a' := fresh "a" in
      destruct (model_predict_proba a X) as [[r|?] a']; simpl
  | |- context [pybind ?c _] =>
      is_var c; destruct c; simpl
  | |- context [match ?c with Ret _ => _ | Raise _ => _ end] =>
      destruct c; simpl
  end.

(** * Facts about the Python operations *)

Lemma pybind_Ret_inv {X Y : Type} (c : pyres X) (k : X -> pyres Y) (y : Y) :
  pybind c k = Ret y -> exists x, c = Ret x /\ k x = Ret y.
Proof. destruct c as [x|e]; simpl; [eauto | discriminate]. Qed.

Lemma py_index_of_nat {X : Type} (l : list X) (i : nat) (x : X) :
  py_index l (Z.of_nat i) = Ret x <-> l !! i = Some x.
Proof.
  unfold py_index.
  destruct (Z.ltb_spec (Z.of_nat i) 0) as [Hneg|_]; [lia|].
  destruct (Z.leb_spec 0 (Z.of_nat i)) as [_|Hneg]; [|lia].
  rewrite Nat2Z.id. simpl.
  destruct (Z.ltb_spec (Z.of_nat i) (Z.of_nat (length l))) as [Hlt|Hge].
  - destruct (l !! i) as [y|] eqn:Hy; split; intros Heq;
      try discriminate; congruence.
  - split; [discriminate|]. intros Hl.
    apply lookup_lt_Some in Hl. lia.
Qed.

Lemma py_index_elem {X : Type} (l : list X) (i : Z) (x : X) :
  py_index l i = Ret x -> x ∈ l.
Proof.
  unfold py_index.
  destruct ((0 <=? _) && _); [|discriminate].
  destruct (l !! _) as [y|] eqn:Hy; [|discriminate].
  intros [= <-]. eapply list_elem_of_lookup_2; eauto.
Qed.

Lemma py_index_head {X : Type} (x : X) (rest : list X) :
  py_index (x :: rest) 0 = Ret x.
Proof. apply (py_index_of_nat (x :: rest) 0%nat). reflexivity. Qed.

Lemma py_index_outside {X : Type} (l : list X) (i : Z) :
  Z.of_nat (length l) <= i \/ i < - Z.of_nat (length l) ->
  py_index l i = Raise IndexError.
Proof.
  intros Hout. unfold py_index.
  destruct (Z.ltb_spec i 0) as [Hneg|Hpos].
  - destruct (Z.leb_spec 0 (i + Z.of_nat (length l))) as [H0|H0];
      destruct (Z.ltb_spec (i + Z.of_nat (length l)) (Z.of_nat (length l)));
      simpl; try reflexivity; lia.
  - destruct (Z.leb_spec 0 i) as [H0|H0];
      destruct (Z.ltb_spec i (Z.of_nat (length l)));
      simpl; try reflexivity; lia.
Qed.

(** A float below zero fails [ge=0]. *)
Lemma below_zero_not_ge (x : float) :
  PrimFloat.ltb x 0%float = true -> PrimFloat.leb 0%float x = false.
Proof.
  rewrite ltb_spec, leb_spec.
  destruct (Prim2SF x) as [sg|sg| |sg m e]; simpl; try discriminate; auto.
  all: destruct sg; simpl; auto; discriminate.
Qed.

(** * Label resolution *)

Lemma predicted_class_synthetic (md : json) (i : Z) :
  lacks_target_names md ->
  predicted_class md i = Ret (JStr ("class_" ++ str_of_int i)).
Proof.
  intros [Hfalsy | (kvs & -> & Hnone)]; unfold predicted_class.
  - rewrite Hfalsy. reflexivity.
  - destruct (truthy (JObj kvs)); simpl; [rewrite Hnone|]; reflexivity.
Qed.

Lemma predicted_class_named (md : json) (names : list json) (i : Z) :
  has_target_names md names ->
  predicted_class md i = py_index names i.
Proof.
  intros (kvs & -> & Hsome). unfold predicted_class.
  assert (truthy (JObj kvs) = true) as ->.
  { destruct kvs; [discriminate | reflexivity]. }
  simpl. rewrite Hsome. reflexivity.
Qed.

Lemma predicted_class_outside (md : json) (names : list json) (i : Z) :
  has_target_names md names ->
  Z.of_nat (length names) <= i \/ i < - Z.of_nat (length names) ->
  predicted_class md i = Raise IndexError.
Proof.
  intros Hnames Hout.
  rewrite (predicted_class_named md names i Hnames).
  apply py_index_outside, Hout.
Qed.

(** With [target_names] a list of strings, every resolved label is a
    string. *)
Lemma predicted_class_string (md : json) (i : Z) (v : json) :
  string_target_names md ->
  predicted_class md i = Ret v ->
  exists name, v = JStr name.
Proof.
  intros Htyped. unfold predicted_class.
  destruct md as [|b|z|x|str|l|kvs].
  - simpl. intros [= <-]. eauto.
  - destruct b; simpl; [discriminate | intros [= <-]; eauto].
  - simpl. destruct (negb (z =? 0)); simpl;
      [discriminate | intros [= <-]; eauto].
  - simpl. destruct (negb (PrimFloat.eqb x 0)); simpl;
      [discriminate | intros [= <-]; eauto].
  - simpl. destruct (negb (String.eqb str "")); simpl; [|intros [= <-]; eauto].
    destruct (String.index 0 "target_names" str); simpl;
      [discriminate | intros [= <-]; eauto].
  - destruct l as [|v0 l]; simpl; [intros [= <-]; eauto|].
    destruct (is_JStr "target_names" v0 || existsb (is_JStr "target_names") l);
      simpl; [discriminate | intros [= <-]; eauto].
  - destruct (truthy (JObj kvs)); cbn [pybind py_contains py_getitem_str];
      [|intros [= <-]; eauto].
    destruct (assoc "target_names" kvs) as [names|] eqn:Hnames;
      cbn [pybind]; [|intros [= <-]; eauto].
    destruct (Htyped kvs names eq_refl Hnames) as [strs ->].
    cbn [py_getitem_int].
    intros Hv. apply py_index_elem in Hv.
    apply list_elem_of_fmap in Hv as (name & -> & _). eauto.
Qed.

(** * The batch loop *)

Lemma format_results_rows (md : json) (fl : list IrisFeatures)
    (rows : list (Z * list float)) :
  forall (i : nat) (rs : list BatchItem),
    format_results md fl i rows = Ret rs ->
    length rs = length rows /\
    forall (k : nat) (pred : Z) (prob : list float),
      rows !! k = Some (pred, prob) ->
      exists (r : BatchItem) (f : IrisFeatures),
        rs !! k = Some r /\
        fl !! (i + k)%nat = Some f /\
        sample_id r = (i + k)%nat /\
        predicted_class md pred = Ret (item_prediction r) /\
        py_index prob pred = Ret (item_probability r) /\
        item_features r = feature_dict f.
Proof.
  induction rows as [|[pred0 prob0] rest IH]; intros i rs Hrun.
  - simpl in Hrun. injection Hrun as <-. split; [reflexivity|].
    intros k pred prob Hk. discriminate.
  - simpl in Hrun.
    apply pybind_Ret_inv in Hrun as (label & Hlabel & Hrun).
    apply pybind_Ret_inv in Hrun as (p & Hp & Hrun).
    apply pybind_Ret_inv in Hrun as (f & Hf & Hrun).
    apply pybind_Ret_inv in Hrun as (rs' & Hrest & Hrun).
    injection Hrun as <-.
    destruct (IH (S i) rs' Hrest) as [Hlen Hrows].
    split; [simpl; congruence|].
    intros [|k] pred prob Hk; simpl in Hk.
    + injection Hk as <- <-.
      eexists; exists f. simpl.
      rewrite Nat.add_0_r.
      apply py_index_of_nat in Hf. auto 10.
    + destruct (Hrows k pred prob Hk) as (r & f' & Hr & Hf' & Hid & Hrest').
      exists r, f'. simpl.
      replace (i + S k)%nat with (S i + k)%nat by lia. auto.
Qed.

(** One row whose label cannot be resolved makes the whole loop raise. *)
Lemma format_results_raises (md : json) (fl : list IrisFeatures)
    (rows : list (Z * list float)) :
  forall (i k : nat) (pred : Z) (prob : list float) (e : exn),
    rows !! k = Some (pred, prob) ->
    predicted_class md pred = Raise e ->
    exists e', format_results md fl i rows = Raise e'.
Proof.
  induction rows as [|[pred0 prob0] rest IH]; intros i k pred prob e Hk Hfail.
  - discriminate.
  - destruct k as [|k]; simpl in Hk.
    + injection Hk as -> ->. simpl. rewrite Hfail. simpl. eauto.
    + simpl.
      destruct (predicted_class md pred0); simpl; [|eauto].
      destruct (py_index prob0 pred0); simpl; [|eauto].
      destruct (py_index fl (Z.of_nat i)); simpl; [|eauto].
      destruct (IH (S i) k pred prob e Hk Hfail) as [e' ->]. simpl. eauto.
Qed.

(** * The handlers against the store *)

Section Facts.
Context {A : Type} {artifact : Artifact A}.
Implicit Types (s : State A) (f : IrisFeatures) (fs : list IrisFeatures).

(** What [predict] replies, in terms of the artifact's two answers. *)
Lemma predict_reply f s (a : A) :
  model s = Some a ->
  fst (predict f s) =
  guard500 "Prediction failed: "
    (let X := [feature_values f] in
     let* predictions := fst (model_predict a X) in
     let* prediction := py_index predictions 0 in
     let* proba := fst (model_predict_proba (snd (model_predict a X)) X) in
     let* probabilities := py_index proba 0 in
     let* label := predicted_class (metadata s) prediction in
     let* p := py_index probabilities prediction in
     mkPredictionResponse label p (feature_dict f)).
Proof.
  intros Hm. unfold_handlers. rewrite Hm. simpl.
  repeat (try reflexivity; case_call).
Qed.

(** What [predict_batch] replies, in terms of the artifact's two answers. *)
Lemma predict_batch_reply fs s (a : A) :
  model s = Some a ->
  fst (predict_batch fs s) =
  guard500 "Batch prediction failed: "
    (let X := map feature_values fs in
     let* predictions := fst (model_predict a X) in
     let* probabilities := fst (model_predict_proba (snd (model_predict a X)) X) in
     format_results (metadata s) fs 0 (zip predictions probabilities)).
Proof.
  intros Hm. unfold_handlers. rewrite Hm. simpl.
  repeat (try reflexivity; case_call).
Qed.

Lemma predict_unloaded f s :
  model s = None ->
  predict f s =
  (Abort {| status_code := 503; http_detail := Text "Model not loaded" |}, s).
Proof. intros Hm. unfold predict. rewrite Hm. reflexivity. Qed.

Lemma predict_batch_unloaded fs s :
  model s = None ->
  predict_batch fs s =
  (Abort {| status_code := 503; http_detail := Text "Model not loaded" |}, s).
Proof. intros Hm. unfold predict_batch. rewrite Hm. reflexivity. Qed.

Lemma guard500_Respond_inv {X : Type} (prefix : string) (c : pyres X) (x : X) :
  guard500 prefix c = Respond x -> c = Ret x.
Proof. destruct c; simpl; [intros [= ->]; reflexivity | discriminate]. Qed.

(** The handlers leave the metadata alone and keep an artifact loaded. *)
Lemma predict_store f s :
  metadata (snd (predict f s)) = metadata s /\
  loaded (snd (predict f s)) = loaded s.
Proof.
  unfold_handlers. unfold loaded.
  destruct (model s) as [a|] eqn:Hm; simpl; [|rewrite Hm; auto].
  repeat (try (simpl; rewrite ?Hm; split; reflexivity); case_call).
Qed.

Lemma predict_batch_store fs s :
  metadata (snd (predict_batch fs s)) = metadata s /\
  loaded (snd (predict_batch fs s)) = loaded s.
Proof.
  unfold_handlers. unfold loaded.
  destruct (model s) as [a|] eqn:Hm; simpl; [|rewrite Hm; auto].
  repeat (try (simpl; rewrite ?Hm; split; reflexivity); case_call).
Qed.

Lemma predict_Respond_inv f s (resp : PredictionResponse) (s' : State A) :
  predict f s = (Respond resp, s') ->
  exists (a : A) ps pred pp row label,
    model s = Some a /\
    fst (model_predict a [feature_values f]) = Ret ps /\
    py_index ps 0 = Ret pred /\
    fst (model_predict_proba (snd (model_predict a [feature_values f]))
           [feature_values f]) = Ret pp /\
    py_index pp 0 = Ret row /\
    predicted_class (metadata s) pred = Ret label /\
    py_index row pred = Ret (probability resp) /\
    label = JStr (prediction resp) /\
    features resp = feature_dict f.
Proof.
  intros Hrun.
  destruct (model s) as [a|] eqn:Hm;
    [|rewrite (predict_unloaded f s Hm) in Hrun; discriminate].
  pose proof (predict_reply f s a Hm) as Heq.
  rewrite Hrun in Heq. simpl in Heq. symmetry in Heq.
  apply guard500_Respond_inv in Heq.
  apply pybind_Ret_inv in Heq as (ps & Hps & Heq).
  apply pybind_Ret_inv in Heq as (pred & Hpred & Heq).
  apply pybind_Ret_inv in Heq as (pp & Hpp & Heq).
  apply pybind_Ret_inv in Heq as (row & Hrow & Heq).
  apply pybind_Ret_inv in Heq as (label & Hlabel & Heq).
  apply pybind_Ret_inv in Heq as (p & Hp & Heq).
  exists a, ps, pred, pp, row, label.
  destruct label; try discriminate.
  injection Heq as <-. simpl. auto 12.
Qed.

Lemma predict_batch_Respond_inv fs s (results : list BatchItem) (s' : State A) :
  predict_batch fs s = (Respond results, s') ->
  exists (a : A) ps pp,
    model s = Some a /\
    fst (model_predict a (map feature_values fs)) = Ret ps /\
    fst (model_predict_proba (snd (model_predict a (map feature_values fs)))
           (map feature_values fs)) = Ret pp /\
    format_results (metadata s) fs 0 (zip ps pp) = Ret results.
Proof.
  intros Hrun.
  destruct (model s) as [a|] eqn:Hm;
    [|rewrite (predict_batch_unloaded fs s Hm) in Hrun; discriminate].
  pose proof (predict_batch_reply fs s a Hm) as Heq.
  rewrite Hrun in Heq. simpl in Heq. symmetry in Heq.
  apply guard500_Respond_inv in Heq.
  apply pybind_Ret_inv in Heq as (ps & Hps & Heq).
  apply pybind_Ret_inv in Heq as (pp & Hpp & Heq).
  exists a, ps, pp. auto.
Qed.

(** ** The store across operations *)

Lemma artifact_first_loaded s :
  artifact_first s <-> (loaded s = false -> metadata s = JNull).
Proof.
  unfold artifact_first, loaded. destruct (model s) as [a|]; split.
  - discriminate.
  - eauto.
  - intros [[_ Hmd]|[a Ha]]; [auto | discriminate].
  - auto.
Qed.

Lemma load_model_artifact_first (d : Disk A) s :
  loads_object d = true ->
  artifact_first s -> artifact_first (snd (load_model d s)).
Proof.
  intros Hobj Hs. unfold load_model. unfold loads_object in Hobj.
  destruct (model_path_exists d); simpl; [|exact Hs].
  destruct (joblib_load d) as [[m|]|e]; simpl;
    [|discriminate Hobj|exact Hs].
  destruct (metadata_path_exists d); [destruct (json_load d)|];
    simpl; right; eauto.
Qed.

Lemma step_artifact_first (o : op A) s :
  object_op o = true ->
  artifact_first s -> artifact_first (step o s).
Proof.
  intros Hobj Hs. destruct o as [d|raw|raws| |]; simpl.
  - apply load_model_artifact_first; assumption.
  - unfold post_predict.
    destruct (validate None raw) as [errs|f]; simpl; [exact Hs|].
    apply artifact_first_loaded.
    destruct (predict_store f s) as [-> ->].
    apply artifact_first_loaded, Hs.
  - unfold post_predict_batch.
    destruct (validate_list 0 raws) as [errs|fs]; simpl; [exact Hs|].
    apply artifact_first_loaded.
    destruct (predict_batch_store fs s) as [-> ->].
    apply artifact_first_loaded, Hs.
  - exact Hs.
  - unfold get_model_info. destruct (metadata s); exact Hs.
Qed.

Lemma run_artifact_first (ops : list (op A)) :
  forall s,
    forallb object_op ops = true ->
    artifact_first s -> artifact_first (run ops s).
Proof.
  induction ops as [|o ops IH]; intros s Hobj Hs; simpl; [exact Hs|].
  simpl in Hobj. apply andb_prop in Hobj as [Ho Hops].
  apply IH; [exact Hops|]. apply step_artifact_first; assumption.
Qed.

Lemma object_reachable_artifact_first s :
  object_reachable s -> artifact_first s.
Proof.
  intros (ops & Hobj & ->). apply run_artifact_first; [exact Hobj|].
  left. split; reflexivity.
Qed.

Lemma object_reachable_initial : object_reachable (A := A) initial.
Proof. exists []. split; reflexivity. Qed.

End Facts.

(** * Loading, and the store without an artifact *)

Section Loading.
Context {A : Type} {artifact : Artifact A}.
Implicit Types (s : State A) (f : IrisFeatures) (fs : list IrisFeatures).

(** C1, as amended.  A load that fails because the artifact file is absent
    or cannot be read leaves the store exactly as it was.  A load that
    succeeds publishes the object [joblib.load] returned, and the metadata
    it read when the metadata file exists; without a metadata file the
    metadata global keeps its value.  As long as no artifact file unpickles
    to [None], after any sequence of operations the store is either empty
    (no artifact, no metadata) or holds an artifact, with or without
    metadata: metadata is not there without an artifact. *)
Theorem load_model_publishes (d : Disk A) s :
  object_reachable s ->
  ((model_path_exists d = false \/ exists e, joblib_load d = Raise e) ->
   load_model d s = (false, s)) /\
  (forall s', load_model d s = (true, s') ->
   exists m, joblib_load d = Ret m /\ model s' = m /\
     invocations s' = invocations s /\
     if metadata_path_exists d then json_load d = Ret (metadata s')
     else metadata s' = metadata s) /\
  artifact_first s /\
  (loads_object d = true -> artifact_first (snd (load_model d s))).
Proof.
  intros Hreach.
  pose proof (object_reachable_artifact_first s Hreach) as Hinv.
  repeat split.
  - intros [Hmissing | [e Hunreadable]]; unfold load_model.
    + rewrite Hmissing. reflexivity.
    + rewrite Hunreadable. destruct (model_path_exists d); reflexivity.
  - unfold load_model.
    destruct (model_path_exists d); simpl; [|discriminate].
    destruct (joblib_load d) as [m|e]; [|discriminate].
    destruct (metadata_path_exists d).
    + destruct (json_load d) as [j|e]; [|discriminate].
      intros s' [= <-]. exists m. simpl. auto.
    + intros s' [= <-]. exists m. simpl. auto.
  - exact Hinv.
  - intros Hobj. apply load_model_artifact_first; assumption.
Qed.

(** C6, as amended.  In every state of the store where no artifact is
    loaded, [predict] and [predict_batch] abort with 503 "Model not loaded"
    for every input and leave the store untouched (no artifact call is
    recorded), and [health_check], whenever it responds, reports unhealthy
    with [model_loaded] false.  When no metadata is loaded either,
    [health_check] responds without model info and [get_model_info] aborts
    with 503 "Model metadata not available"; that is so in every such state
    the service gets to as long as no artifact file unpickles to [None]. *)
Theorem unloaded_store_unavailable s f fs :
  model s = None ->
  predict f s =
    (Abort {| status_code := 503; http_detail := Text "Model not loaded" |}, s) /\
  predict_batch fs s =
    (Abort {| status_code := 503; http_detail := Text "Model not loaded" |}, s) /\
  (forall h, fst (health_check s) = Respond h ->
     status h = "unhealthy" /\ model_loaded h = false) /\
  (metadata s = JNull ->
   health_check s =
     (Respond {| status := "unhealthy"; model_loaded := false;
                 model_info := None |}, s) /\
   get_model_info s =
     (Abort {| status_code := 503;
               http_detail := Text "Model metadata not available" |}, s)) /\
  (object_reachable s -> metadata s = JNull).
Proof.
  intros Hm.
  split; [apply predict_unloaded, Hm|].
  split; [apply predict_batch_unloaded, Hm|].
  split; [|split].
  - unfold health_check, loaded. rewrite Hm. simpl.
    match goal with |- forall h, escape (pybind ?c _) = _ -> _ =>
      destruct c as [info|e] end; simpl; intros h Hh; [|discriminate Hh].
    injection Hh as <-. split; reflexivity.
  - intros Hmd. split.
    + unfold health_check, loaded. rewrite Hmd, Hm. reflexivity.
    + unfold get_model_info. rewrite Hmd. reflexivity.
  - intros Hreach.
    destruct (object_reachable_artifact_first s Hreach) as [[_ Hmd]|[a Ha]];
      [exact Hmd | congruence].
Qed.

End Loading.

(** C1 at a concrete store: starting empty, a load from a directory without
    the artifact file fails and changes nothing, and a load from a trained
    directory publishes artifact and metadata. *)
Lemma load_model_publishes_witness :
  object_reachable (A := Canned) initial /\
  load_model untrained initial = (false, initial) /\
  load_model (trained mock) initial =
    (true, {| model := Some mock; metadata := iris_metadata;
              invocations := [] |}) /\
  artifact_first (snd (load_model (trained mock) initial)).
Proof.
  pose proof (load_model_publishes untrained initial object_reachable_initial)
    as (Hfail & _).
  pose proof (load_model_publishes (trained mock) initial
                object_reachable_initial) as (_ & _ & _ & Hinv).
  split; [exact object_reachable_initial|].
  split; [apply Hfail; left; reflexivity|].
  split; [reflexivity | apply Hinv; reflexivity].
Defined.

(** C1 as stated fails: after one successful load from a directory that has
    the artifact file and no metadata file, the store holds an artifact and
    no metadata, and readers see it: [health_check] reports the model loaded
    without model info, [get_model_info] aborts with 503, and [predict]
    answers with a synthetic label. *)
Lemma load_without_metadata_is_partial :
  load_model artifact_only initial =
    (true, {| model := Some mock; metadata := JNull; invocations := [] |}) /\
  fst (health_check (run [OpLoad artifact_only] initial)) =
    Respond {| status := "healthy"; model_loaded := true; model_info := None |} /\
  fst (get_model_info (run [OpLoad artifact_only] initial)) =
    Abort {| status_code := 503;
             http_detail := Text "Model metadata not available" |} /\
  fst (predict setosa_sample (run [OpLoad artifact_only] initial)) =
    Respond {| prediction := "class_0"; probability := 1;
               features := feature_dict setosa_sample |}.
Proof. repeat split. Qed.

(** The path the amended C1 leaves open: when the metadata file does not
    parse, [load_model] returns [False] after the assignment to [model], so
    the new artifact serves while the metadata is the previous one. *)
Lemma failed_metadata_read_keeps_artifact :
  load_model broken_metadata initial =
    (false, {| model := Some mock; metadata := JNull; invocations := [] |}) /\
  fst (health_check (run [OpLoad broken_metadata] initial)) =
    Respond {| status := "healthy"; model_loaded := true; model_info := None |}.
Proof. repeat split. Qed.

(** An artifact file that unpickles to [None]: [load_model] returns [True],
    [model] is [None] and the metadata is published, also over an artifact
    that was loaded before. *)
Lemma none_artifact_publishes_metadata :
  load_model none_artifact initial =
    (true, {| model := None; metadata := iris_metadata; invocations := [] |}) /\
  loaded (snd (load_model none_artifact one_row_store)) = false.
Proof. split; reflexivity. Qed.

(** C6 at the empty store. *)
Lemma unloaded_store_unavailable_witness :
  predict setosa_sample (initial (A := Threshold)) =
    (Abort {| status_code := 503; http_detail := Text "Model not loaded" |},
     initial) /\
  get_model_info (initial (A := Threshold)) =
    (Abort {| status_code := 503;
              http_detail := Text "Model metadata not available" |}, initial).
Proof.
  pose proof (unloaded_store_unavailable (A := Threshold) initial setosa_sample
                [setosa_sample; versicolor_sample] eq_refl)
    as (Hp & _ & _ & Hi & _).
  split; [exact Hp | exact (proj2 (Hi eq_refl))].
Defined.

(** C6 as stated fails: after a load from a directory whose artifact file
    holds [None] next to the trainer's metadata, no artifact is loaded,
    [predict] aborts with 503 and [health_check] reports unhealthy, but
    [get_model_info] answers with the metadata and [health_check] carries
    the model info. *)
Lemma unloaded_with_metadata_informs :
  model (run [OpLoad none_artifact] initial) = None /\
  fst (predict setosa_sample (run [OpLoad none_artifact] initial)) =
    Abort {| status_code := 503; http_detail := Text "Model not loaded" |} /\
  fst (get_model_info (run [OpLoad none_artifact] initial)) =
    Respond {| model_type := JStr "RandomForestClassifier";
               feature_names :=
                 JArr [JStr "sepal length (cm)"; JStr "sepal width (cm)";
                       JStr "petal length (cm)"; JStr "petal width (cm)"];
               target_names :=
                 JArr [JStr "setosa"; JStr "versicolor"; JStr "virginica"];
               model_parameters :=
                 {| n_estimators := JInt 100; max_depth := JInt 10 |} |} /\
  fst (health_check (run [OpLoad none_artifact] initial)) =
    Respond {| status := "unhealthy"; model_loaded := false;
               model_info :=
                 Some [("model_type", JStr "RandomForestClassifier");
                       ("feature_names",
                        JArr [JStr "sepal length (cm)"; JStr "sepal width (cm)";
                              JStr "petal length (cm)"; JStr "petal width (cm)"]);
                       ("target_names",
                        JArr [JStr "setosa"; JStr "versicolor";
                              JStr "virginica"])] |}.
Proof. repeat split. Qed.

(** * Label resolution in the handlers *)

Section Labels.
Context {A : Type} {artifact : Artifact A}.
Implicit Types (s : State A) (f : IrisFeatures) (fs : list IrisFeatures).

(** C2, as amended.  The synthetic label ["class_<index>"] is what label
    resolution returns when the metadata is absent or empty or has no
    [target_names] key.  When [target_names] is a list and the predicted
    class index is outside its index range, label resolution raises an index
    error, and the single or batch request aborts with status 500. *)
Theorem label_resolution (md : json) (i : Z) :
  (lacks_target_names md ->
   predicted_class md i = Ret (JStr ("class_" ++ str_of_int i))) /\
  (forall names,
     has_target_names md names ->
     Z.of_nat (length names) <= i \/ i < - Z.of_nat (length names) ->
     predicted_class md i = Raise IndexError /\
     (forall s f (a : A) ps,
        metadata s = md -> model s = Some a ->
        fst (model_predict a [feature_values f]) = Ret ps ->
        py_index ps 0 = Ret i ->
        exists e, fst (predict f s) =
          Abort {| status_code := 500;
                   http_detail := Caused "Prediction failed: " e |}) /\
     (forall s fs (a : A) ps pp k prob,
        metadata s = md -> model s = Some a ->
        fst (model_predict a (map feature_values fs)) = Ret ps ->
        fst (model_predict_proba (snd (model_predict a (map feature_values fs)))
               (map feature_values fs)) = Ret pp ->
        ps !! k = Some i -> pp !! k = Some prob ->
        exists e, fst (predict_batch fs s) =
          Abort {| status_code := 500;
                   http_detail := Caused "Batch prediction failed: " e |})).
Proof.
  split; [apply predicted_class_synthetic|].
  intros names Hnames Hout.
  pose proof (predicted_class_outside md names i Hnames Hout) as Hfail.
  split; [exact Hfail|]. split.
  - intros s f a ps Hmd Hm Hps Hpred.
    rewrite (predict_reply f s a Hm). simpl.
    rewrite Hps. simpl. rewrite Hpred. simpl.
    destruct (fst (model_predict_proba _ _)) as [pp|e]; simpl; [|eauto].
    destruct (py_index pp 0) as [row|e]; simpl; [|eauto].
    rewrite Hmd, Hfail. simpl. eauto.
  - intros s fs a ps pp k prob Hmd Hm Hps Hpp Hk Hprob.
    rewrite (predict_batch_reply fs s a Hm). simpl.
    rewrite Hps. simpl. rewrite Hpp. simpl.
    assert (zip ps pp !! k = Some (i, prob)) as Hrow
      by (apply lookup_zip_Some; auto).
    rewrite Hmd.
    destruct (format_results_raises md fs (zip ps pp) 0 k i prob IndexError
                Hrow Hfail) as [e ->].
    simpl. eauto.
Qed.

End Labels.

(** C2 at concrete metadata: without metadata class 2 is labelled
    ["class_2"]; with the trainer's three names, index 3 raises. *)
Lemma label_resolution_witness :
  predicted_class JNull 2 = Ret (JStr "class_2") /\
  predicted_class iris_metadata 3 = Raise IndexError.
Proof.
  split.
  - apply (proj1 (label_resolution (A := Canned) JNull 2)).
    left. reflexivity.
  - apply (proj2 (label_resolution (A := Canned) iris_metadata 3)
             [JStr "setosa"; JStr "versicolor"; JStr "virginica"]).
    + eexists. split; reflexivity.
    + left. simpl. lia.
Defined.

(** C2 as stated fails: with three target names and a predicted class
    index of 3, label resolution raises and both handlers abort with 500;
    no ["class_3"] is returned. *)
Lemma out_of_range_index_aborts :
  predicted_class iris_metadata 3 = Raise IndexError /\
  fst (predict setosa_sample fourth_class_store) =
    Abort {| status_code := 500;
             http_detail := Caused "Prediction failed: " IndexError |} /\
  fst (predict_batch [setosa_sample] fourth_class_store) =
    Abort {| status_code := 500;
             http_detail := Caused "Batch prediction failed: " IndexError |}.
Proof. repeat split. Qed.

(** * Results of [predict] and [predict_batch] *)

Section Results.
Context {A : Type} {artifact : Artifact A}.
Implicit Types (s : State A) (f : IrisFeatures) (fs : list IrisFeatures).

(** Every item of a batch response sits at the position of the input it
    was computed from. *)
Lemma predict_batch_items fs s (results : list BatchItem) (s' : State A) :
  predict_batch fs s = (Respond results, s') ->
  exists (a : A) ps pp,
    model s = Some a /\
    fst (model_predict a (map feature_values fs)) = Ret ps /\
    fst (model_predict_proba (snd (model_predict a (map feature_values fs)))
           (map feature_values fs)) = Ret pp /\
    length results = Nat.min (length ps) (length pp) /\
    forall i r,
      results !! i = Some r ->
      exists f pred prob,
        fs !! i = Some f /\ ps !! i = Some pred /\ pp !! i = Some prob /\
        sample_id r = i /\
        predicted_class (metadata s) pred = Ret (item_prediction r) /\
        py_index prob pred = Ret (item_probability r) /\
        item_features r = feature_dict f.
Proof.
  intros Hrun.
  apply predict_batch_Respond_inv in Hrun as (a & ps & pp & Hm & Hps & Hpp & Hfmt).
  apply format_results_rows in Hfmt as [Hlen Hrows].
  exists a, ps, pp. rewrite Hlen, length_zip. repeat (split; [assumption || reflexivity|]).
  intros i r Hr.
  assert (i < length (zip ps pp))%nat as Hi
    by (rewrite <- Hlen; eapply lookup_lt_Some; eauto).
  apply lookup_lt_is_Some_2 in Hi as [[pred prob] Hrow].
  destruct (Hrows i pred prob Hrow) as (r' & f & Hr' & Hf & Hid & Hlabel & Hp & Hecho).
  simpl in Hf, Hid.
  assert (r' = r) as -> by congruence.
  apply lookup_zip_Some in Hrow as [Hpred Hprob].
  exists f, pred, prob. auto 10.
Qed.

(** C3, as amended.  When the artifact answers with one class index and one
    probability row per input row, a successful batch response has as many
    items as the input, and for every position [i] the item at [i] has
    [sample_id = i], echoes the features of input [i], and carries the label
    and the probability resolved from row [i] of the artifact's answers to
    the matrix whose row [i] is input [i]. *)
Theorem predict_batch_positions fs s (results : list BatchItem) (s' : State A) :
  row_per_row ->
  predict_batch fs s = (Respond results, s') ->
  length results = length fs /\
  exists (a : A) ps pp,
    model s = Some a /\
    fst (model_predict a (map feature_values fs)) = Ret ps /\
    fst (model_predict_proba (snd (model_predict a (map feature_values fs)))
           (map feature_values fs)) = Ret pp /\
    forall i f,
      fs !! i = Some f ->
      exists r pred prob,
        results !! i = Some r /\
        sample_id r = i /\
        map feature_values fs !! i = Some (feature_values f) /\
        ps !! i = Some pred /\ pp !! i = Some prob /\
        predicted_class (metadata s) pred = Ret (item_prediction r) /\
        py_index prob pred = Ret (item_probability r) /\
        item_features r = feature_dict f.
Proof.
  intros Hshape Hrun.
  destruct (predict_batch_items fs s results s' Hrun)
    as (a & ps & pp & Hm & Hps & Hpp & Hlen & Hitems).
  destruct (Hshape a (map feature_values fs)) as [Hlps _].
  destruct (Hshape (snd (model_predict a (map feature_values fs)))
              (map feature_values fs)) as [_ Hlpp].
  specialize (Hlps ps Hps). specialize (Hlpp pp Hpp).
  rewrite length_map in Hlps, Hlpp.
  assert (length results = length fs) as Hsame by lia.
  split; [exact Hsame|].
  exists a, ps, pp. repeat (split; [assumption|]).
  intros i f Hf.
  assert (i < length results)%nat as Hi
    by (rewrite Hsame; eapply lookup_lt_Some; eauto).
  apply lookup_lt_is_Some_2 in Hi as [r Hr].
  destruct (Hitems i r Hr) as (f' & pred & prob & Hf' & Hrest).
  assert (f' = f) as -> by congruence.
  exists r, pred, prob.
  split; [exact Hr|]. split; [tauto|].
  split; [rewrite list_lookup_fmap, Hf; reflexivity|]. tauto.
Qed.

(** C8.  When every entry of the artifact's probability matrices lies in
    [0, 1]: the probability of a [predict] response is the entry, at the
    predicted class index, of row 0 of the probability matrix, and the
    probability of item [i] of a [predict_batch] response is the entry, at
    the class index predicted for row [i], of row [i]; both lie in [0, 1]. *)
Theorem probability_of_predicted_class s :
  proba_in_unit ->
  (forall f resp s',
     predict f s = (Respond resp, s') ->
     exists (a : A) ps pred pp row,
       model s = Some a /\
       fst (model_predict a [feature_values f]) = Ret ps /\
       py_index ps 0 = Ret pred /\
       fst (model_predict_proba (snd (model_predict a [feature_values f]))
              [feature_values f]) = Ret pp /\
       py_index pp 0 = Ret row /\
       py_index row pred = Ret (probability resp) /\
       unit_interval (probability resp)) /\
  (forall fs results s',
     predict_batch fs s = (Respond results, s') ->
     exists (a : A) ps pp,
       model s = Some a /\
       fst (model_predict a (map feature_values fs)) = Ret ps /\
       fst (model_predict_proba (snd (model_predict a (map feature_values fs)))
              (map feature_values fs)) = Ret pp /\
       forall i r,
         results !! i = Some r ->
         exists pred row,
           ps !! i = Some pred /\ pp !! i = Some row /\
           py_index row pred = Ret (item_probability r) /\
           unit_interval (item_probability r)).
Proof.
  intros Hunit. split.
  - intros f resp s' Hrun.
    apply predict_Respond_inv in Hrun
      as (a & ps & pred & pp & row & label & Hm & Hps & Hpred & Hpp & Hrow
          & _ & Hp & _).
    exists a, ps, pred, pp, row. repeat (split; [assumption|]).
    pose proof (Hunit _ _ _ Hpp) as Hall.
    apply py_index_elem in Hrow. apply py_index_elem in Hp.
    rewrite Forall_forall in Hall. specialize (Hall row Hrow).
    rewrite Forall_forall in Hall. exact (Hall _ Hp).
  - intros fs results s' Hrun.
    destruct (predict_batch_items fs s results s' Hrun)
      as (a & ps & pp & Hm & Hps & Hpp & _ & Hitems).
    exists a, ps, pp. repeat (split; [assumption|]).
    intros i r Hr.
    destruct (Hitems i r Hr) as (f & pred & row & _ & Hpred & Hrow & _ & _ & Hp & _).
    exists pred, row. repeat (split; [assumption|]).
    pose proof (Hunit _ _ _ Hpp) as Hall.
    apply list_elem_of_lookup_2 in Hrow. apply py_index_elem in Hp.
    rewrite Forall_forall in Hall. specialize (Hall row Hrow).
    rewrite Forall_forall in Hall. exact (Hall _ Hp).
Qed.

(** C9.  The [features] of a successful [predict] response are the four
    fields of the validated input under their names, and the [features] of
    item [i] of a successful [predict_batch] response are the four fields of
    input [i]. *)
Theorem features_echoed s :
  (forall f resp s',
     predict f s = (Respond resp, s') ->
     features resp =
       [("sepal_length", sepal_length f); ("sepal_width", sepal_width f);
        ("petal_length", petal_length f); ("petal_width", petal_width f)]) /\
  (forall fs results s',
     predict_batch fs s = (Respond results, s') ->
     forall i r,
       results !! i = Some r ->
       exists f,
         fs !! i = Some f /\
         item_features r =
           [("sepal_length", sepal_length f); ("sepal_width", sepal_width f);
            ("petal_length", petal_length f); ("petal_width", petal_width f)]).
Proof.
  split.
  - intros f resp s' Hrun.
    apply predict_Respond_inv in Hrun
      as (a & ps & pred & pp & row & label & _ & _ & _ & _ & _ & _ & _ & _ & Hecho).
    exact Hecho.
  - intros fs results s' Hrun i r Hr.
    destruct (predict_batch_items fs s results s' Hrun)
      as (a & ps & pp & _ & _ & _ & _ & Hitems).
    destruct (Hitems i r Hr) as (f & pred & row & Hf & _ & _ & _ & _ & _ & Hecho).
    exists f. split; assumption.
Qed.

End Results.

(** * Batch against single prediction, and determinism *)

Section Agreement.
Context {A : Type} {artifact : Artifact A}.
Implicit Types (s : State A) (f : IrisFeatures) (fs : list IrisFeatures).

(** C4.  For an artifact whose batch answers agree row by row with its
    single-row answers: a successful batch response has one item per input,
    and on any store holding the artifact and the same metadata [predict]
    replies to input [i] with the response built from the label, the
    probability and the echoed features of the item at position [i].
    [predict] declares that its label is a string: when [target_names] is a
    list of strings, as the trainer writes it, it responds, and label,
    probability and features are those of the item. *)
Theorem predict_batch_agrees_with_predict fs s (results : list BatchItem)
    (s' : State A) :
  rowwise_artifact ->
  predict_batch fs s = (Respond results, s') ->
  length results = length fs /\
  forall i f s1,
    fs !! i = Some f ->
    loaded s1 = true ->
    metadata s1 = metadata s ->
    exists r,
      results !! i = Some r /\
      fst (predict f s1) =
        guard500 "Prediction failed: "
          (mkPredictionResponse (item_prediction r) (item_probability r)
             (item_features r)) /\
      (string_target_names (metadata s) ->
       exists resp,
         fst (predict f s1) = Respond resp /\
         item_prediction r = JStr (prediction resp) /\
         item_probability r = probability resp /\
         item_features r = features resp).
Proof.
  intros Hrowwise Hrun.
  destruct (predict_batch_items fs s results s' Hrun)
    as (a & ps & pp & Hm & Hps & Hpp & Hlen & Hitems).
  set (X := map feature_values fs) in *.
  assert (forall i f, fs !! i = Some f ->
            (i < length ps)%nat /\ (i < length pp)%nat) as Hcover.
  { intros i f Hf.
    assert (X !! i = Some (feature_values f)) as Hrow
      by (unfold X; rewrite list_lookup_fmap, Hf; reflexivity).
    destruct (Hrowwise a a X i _ Hrow) as [Hone _].
    destruct (Hrowwise (snd (model_predict a X)) a X i _ Hrow) as [_ Htwo].
    destruct (Hone ps Hps) as (q & _ & _ & Hq).
    destruct (Htwo pp Hpp) as (d & _ & _ & Hd).
    split; eapply lookup_lt_Some; eauto. }
  assert (length results = length fs) as Hsame.
  { destruct (Nat.lt_trichotomy (length results) (length fs)) as [Hlt|[Heq|Hgt]].
    - exfalso.
      destruct (lookup_lt_is_Some_2 fs (length results) Hlt) as [f Hf].
      destruct (Hcover _ f Hf). lia.
    - exact Heq.
    - exfalso.
      destruct (lookup_lt_is_Some_2 results (length fs) Hgt) as [r Hr].
      destruct (Hitems _ r Hr) as (f & _ & _ & Hf & _).
      apply lookup_lt_Some in Hf. lia. }
  split; [exact Hsame|].
  intros i f s1 Hf Hloaded Hmd.
  unfold loaded in Hloaded.
  destruct (model s1) as [a1|] eqn:Hm1; [|discriminate].
  assert (i < length results)%nat as Hi
    by (rewrite Hsame; eapply lookup_lt_Some; eauto).
  apply lookup_lt_is_Some_2 in Hi as [r Hr].
  destruct (Hitems i r Hr)
    as (f' & pred & prob & Hf' & Hpred & Hprob & _ & Hlabel & Hp & Hecho).
  assert (f' = f) as -> by congruence.
  assert (X !! i = Some (feature_values f)) as Hrow
    by (unfold X; rewrite list_lookup_fmap, Hf; reflexivity).
  destruct (Hrowwise a a1 X i _ Hrow) as [Hone _].
  destruct (Hone ps Hps) as (q & rest & Hsingle & Hq).
  destruct (Hrowwise (snd (model_predict a X))
              (snd (model_predict a1 [feature_values f])) X i _ Hrow)
    as [_ Htwo].
  destruct (Htwo pp Hpp) as (d & rest' & Hsingle' & Hd).
  assert (q = pred) as -> by congruence.
  assert (d = prob) as -> by congruence.
  assert (fst (predict f s1) =
          guard500 "Prediction failed: "
            (mkPredictionResponse (item_prediction r) (item_probability r)
               (item_features r))) as Hreply.
  { rewrite (predict_reply f s1 a1 Hm1). cbv zeta.
    rewrite Hsingle. cbn [pybind]. rewrite py_index_head. cbn [pybind].
    rewrite Hsingle'. cbn [pybind]. rewrite py_index_head. cbn [pybind].
    rewrite Hmd, Hlabel. cbn [pybind]. rewrite Hp. cbn [pybind].
    rewrite Hecho. reflexivity. }
  exists r. split; [exact Hr|]. split; [exact Hreply|].
  intros Htyped.
  destruct (predicted_class_string _ _ _ Htyped Hlabel) as [name Hname].
  exists {| prediction := name; probability := item_probability r;
            features := item_features r |}.
  rewrite Hreply, Hname. simpl. auto.
Qed.

(** C7.  For an artifact whose answers are functions of their input and
    fixed metadata, [predict] replies the same to the same features on any
    two stores holding the artifact, and in particular when it is called
    twice in a row. *)
Theorem predict_deterministic f :
  deterministic_artifact ->
  (forall s1 s2,
     loaded s1 = true -> loaded s2 = true ->
     metadata s1 = metadata s2 ->
     fst (predict f s1) = fst (predict f s2)) /\
  (forall s,
     loaded s = true ->
     fst (predict f (snd (predict f s))) = fst (predict f s)).
Proof.
  intros Hdet.
  assert (forall s1 s2,
            loaded s1 = true -> loaded s2 = true ->
            metadata s1 = metadata s2 ->
            fst (predict f s1) = fst (predict f s2)) as Hsame.
  { intros s1 s2 Hl1 Hl2 Hmd. unfold loaded in Hl1, Hl2.
    destruct (model s1) as [a1|] eqn:Hm1; [|discriminate].
    destruct (model s2) as [a2|] eqn:Hm2; [|discriminate].
    rewrite (predict_reply f s1 a1 Hm1), (predict_reply f s2 a2 Hm2). simpl.
    destruct (Hdet a1 a2 [feature_values f]) as [-> _].
    destruct (Hdet (snd (model_predict a1 [feature_values f]))
                (snd (model_predict a2 [feature_values f]))
                [feature_values f]) as [_ ->].
    rewrite Hmd. reflexivity. }
  split; [exact Hsame|].
  intros s Hl. destruct (predict_store f s) as [Hmd Hl'].
  apply Hsame; [congruence | exact Hl | exact Hmd].
Qed.

End Agreement.

(** * Validation at the boundary, and model information *)

Lemma bad_field_reported (item : option nat) (name : string) (v : option float) :
  bad_field v -> check_field item name v <> [].
Proof.
  intros [-> | (x & -> & Hneg)]; simpl; [discriminate|].
  rewrite (below_zero_not_ge x Hneg). discriminate.
Qed.

Lemma bad_request_reported (item : option nat) (raw : RawFeatures) :
  bad_request raw -> field_errors item raw <> [].
Proof.
  unfold field_errors.
  intros [Hbad | [Hbad | [Hbad | Hbad]]] Hnil;
    repeat (apply app_eq_nil in Hnil as [? Hnil]);
    eapply bad_field_reported; eauto.
Qed.

Lemma validate_bad (item : option nat) (raw : RawFeatures) :
  bad_request raw ->
  validate item raw = inl (field_errors item raw) /\ field_errors item raw <> [].
Proof.
  intros Hbad. pose proof (bad_request_reported item raw Hbad) as Hne.
  split; [|exact Hne]. unfold validate.
  destruct (field_errors item raw) as [|e errs]; [congruence|].
  reflexivity.
Qed.

Lemma validate_list_bad (raws : list RawFeatures) :
  forall i, Exists bad_request raws ->
  exists errs, errs <> [] /\ validate_list i raws = inl errs.
Proof.
  induction raws as [|raw rest IH]; intros i Hex; [inversion Hex|].
  simpl. apply Exists_cons in Hex as [Hbad | Hrest].
  - destruct (validate_bad (Some i) raw Hbad) as [-> Hne].
    destruct (validate_list (S i) rest) as [es|fs].
    + exists (field_errors (Some i) raw ++ es)%list. split; [|reflexivity].
      intros Hnil. apply app_eq_nil in Hnil as [? _]. auto.
    + exists (field_errors (Some i) raw). auto.
  - destruct (IH (S i) Hrest) as (es & Hne & ->).
    destruct (validate (Some i) raw) as [e|f].
    + exists (e ++ es)%list. split; [|reflexivity].
      intros Hnil. apply app_eq_nil in Hnil as [_ ?]. auto.
    + exists es. auto.
Qed.

Lemma echoed_present (raw : RawFeatures) (x : float) :
  x ∈ echoed raw -> x ∈ present raw.
Proof.
  unfold echoed. intros Hx. apply elem_of_app in Hx as [Hx | Hx].
  - destruct (has_missing raw); [exact Hx | inversion Hx].
  - apply list_elem_of_filter in Hx as [_ Hx]. exact Hx.
Qed.

Lemma echoed_finite (raw : RawFeatures) :
  finite_body raw = true -> forallb PrimFloat.is_finite (echoed raw) = true.
Proof.
  unfold finite_body. rewrite !forallb_forall.
  intros Hall x Hx. apply Hall.
  apply list_elem_of_In, echoed_present, list_elem_of_In, Hx.
Qed.

Lemma echoed_all_finite (raws : list RawFeatures) :
  Forall (fun raw => finite_body raw = true) raws ->
  forallb PrimFloat.is_finite (flat_map echoed raws) = true.
Proof.
  induction 1 as [|raw raws Hraw _ IH]; simpl; [reflexivity|].
  rewrite forallb_app, (echoed_finite raw Hraw), IH. reflexivity.
Qed.

Section Boundary.
Context {A : Type} {artifact : Artifact A}.
Implicit Types (s : State A).

(** C5, as amended.  A single request with a field missing or below zero is
    rejected with a non-empty error list before the handler is entered: the
    store, and with it the record of artifact calls, is unchanged; so is a
    batch request in which at least one item has such a field, as a whole.
    The rejection is the 422 answer when the error report renders as JSON,
    as it does whenever every number of the body is finite; when the report
    echoes an infinite or NaN number, the rendering raises and the request
    ends with that exception instead. *)
Theorem bad_request_rejected s :
  (forall raw,
     bad_request raw ->
     exists errs, errs <> [] /\
       post_predict raw s = (reject errs (echoed raw), s) /\
       (finite_body raw = true ->
        post_predict raw s = (unprocessable errs, s))) /\
  (forall raws,
     Exists bad_request raws ->
     exists errs, errs <> [] /\
       post_predict_batch raws s = (reject errs (flat_map echoed raws), s) /\
       (Forall (fun raw => finite_body raw = true) raws ->
        post_predict_batch raws s = (unprocessable errs, s))).
Proof.
  split.
  - intros raw Hbad. unfold post_predict.
    destruct (validate_bad None raw Hbad) as [-> Hne].
    eexists. split; [exact Hne|]. split; [reflexivity|].
    intros Hfin. unfold reject. rewrite (echoed_finite raw Hfin). reflexivity.
  - intros raws Hbad. unfold post_predict_batch.
    destruct (validate_list_bad raws 0%nat Hbad) as (errs & Hne & ->).
    exists errs. split; [exact Hne|]. split; [reflexivity|].
    intros Hfin. unfold reject. rewrite (echoed_all_finite raws Hfin).
    reflexivity.
Qed.

(** C10, as amended.  Whenever the metadata is a dict, [get_model_info]
    responds, each field with [metadata.get] of its key, and [metadata.get]
    of a key the dict does not have is [None]. *)
Theorem model_info_total s (kvs : list (string * json)) :
  metadata s = JObj kvs ->
  get_model_info s =
    (Respond {| model_type := dict_get kvs "model_type";
                feature_names := dict_get kvs "feature_names";
                target_names := dict_get kvs "target_names";
                model_parameters :=
                  {| n_estimators := dict_get kvs "n_estimators";
                     max_depth := dict_get kvs "max_depth" |} |}, s) /\
  forall k, assoc k kvs = None -> dict_get kvs k = JNull.
Proof.
  intros Hmd. split.
  - unfold get_model_info. rewrite Hmd. reflexivity.
  - intros k Hk. unfold dict_get. rewrite Hk. reflexivity.
Qed.

End Boundary.

(** * The threshold classifier meets the hypotheses *)

Lemma threshold_rowwise : rowwise_artifact (A := Threshold).
Proof.
  intros a a' X i row Hrow. split.
  - intros ps [= <-]. exists (threshold_class row), []. split; [reflexivity|].
    rewrite list_lookup_fmap, Hrow. reflexivity.
  - intros pp [= <-]. exists (threshold_proba row), []. split; [reflexivity|].
    rewrite list_lookup_fmap, Hrow. reflexivity.
Qed.

Lemma threshold_deterministic : deterministic_artifact (A := Threshold).
Proof. intros a a' X. split; reflexivity. Qed.

Lemma threshold_row_per_row : row_per_row (A := Threshold).
Proof.
  intros a X. split.
  - intros ps [= <-]. apply length_map.
  - intros pp [= <-]. apply length_map.
Qed.

Lemma threshold_proba_in_unit : proba_in_unit (A := Threshold).
Proof.
  intros a X pp [= <-]. apply Forall_forall. intros row Hrow.
  apply list_elem_of_fmap in Hrow as (x & -> & _).
  unfold threshold_proba.
  destruct (threshold_class x =? 0);
    repeat constructor; reflexivity.
Qed.

Lemma iris_metadata_strings : string_target_names iris_metadata.
Proof.
  intros kvs v [= <-] Hv. simpl in Hv. injection Hv as <-.
  exists ["setosa"; "versicolor"; "virginica"]. reflexivity.
Qed.

(** * The theorems at concrete stores *)

(** C3 on the threshold classifier: two inputs give two items. *)
Lemma predict_batch_positions_witness :
  row_per_row (A := Threshold) /\
  exists results s',
    predict_batch [setosa_sample; versicolor_sample] threshold_store =
      (Respond results, s') /\
    length results = 2%nat.
Proof.
  split; [exact threshold_row_per_row|].
  eexists _, _. split; [reflexivity|].
  exact (proj1 (predict_batch_positions [setosa_sample; versicolor_sample]
                  threshold_store _ _ threshold_row_per_row eq_refl)).
Defined.

(** C3 as stated fails: an artifact that answers one row to a matrix of two
    rows makes [predict_batch] respond with a single item for two inputs. *)
Lemma short_answer_short_batch :
  fst (predict_batch [setosa_sample; versicolor_sample] one_row_store) =
    Respond [{| sample_id := 0; item_prediction := JStr "setosa";
                item_probability := 1;
                item_features := feature_dict setosa_sample |}] /\
  length [setosa_sample; versicolor_sample] = 2%nat.
Proof. split; reflexivity. Qed.

(** C4 on the threshold classifier: item 1 of the batch is what [predict]
    returns for the second input. *)
Lemma predict_batch_agrees_with_predict_witness :
  rowwise_artifact (A := Threshold) /\
  exists results s',
    predict_batch [setosa_sample; versicolor_sample] threshold_store =
      (Respond results, s') /\
    length results = 2%nat /\
    exists r resp,
      results !! 1%nat = Some r /\
      fst (predict versicolor_sample threshold_store) = Respond resp /\
      item_prediction r = JStr (prediction resp) /\
      item_probability r = probability resp /\
      item_features r = features resp.
Proof.
  split; [exact threshold_rowwise|].
  eexists _, _. split; [reflexivity|].
  destruct (predict_batch_agrees_with_predict
              [setosa_sample; versicolor_sample] threshold_store _ _
              threshold_rowwise eq_refl) as [Hlen Hitems].
  split; [exact Hlen|].
  destruct (Hitems 1%nat versicolor_sample threshold_store
              eq_refl eq_refl eq_refl) as (r & Hr & _ & Htyped).
  destruct (Htyped iris_metadata_strings) as (resp & Hresp & Hrest).
  exists r, resp. auto.
Defined.

(** C7 on the threshold classifier: asking twice gives the same reply. *)
Lemma predict_deterministic_witness :
  deterministic_artifact (A := Threshold) /\
  fst (predict setosa_sample (snd (predict setosa_sample threshold_store))) =
  fst (predict setosa_sample threshold_store).
Proof.
  split; [exact threshold_deterministic|].
  exact (proj2 (predict_deterministic setosa_sample threshold_deterministic)
           threshold_store eq_refl).
Defined.

(** Without the hypothesis of C7 the reply can change: the flipping
    artifact answers class 0, then class 1, to the same features. *)
Lemma flip_replies_differ :
  fst (predict setosa_sample flip_store) =
    Respond {| prediction := "class_0"; probability := 0.5;
               features := feature_dict setosa_sample |} /\
  fst (predict setosa_sample (snd (predict setosa_sample flip_store))) =
    Respond {| prediction := "class_1"; probability := 0.5;
               features := feature_dict setosa_sample |}.
Proof. split; reflexivity. Qed.

(** C8 on the threshold classifier. *)
Lemma probability_of_predicted_class_witness :
  proba_in_unit (A := Threshold) /\
  exists resp s',
    predict setosa_sample threshold_store = (Respond resp, s') /\
    unit_interval (probability resp).
Proof.
  split; [exact threshold_proba_in_unit|].
  eexists _, _. split; [reflexivity|].
  destruct (proj1 (probability_of_predicted_class threshold_store
                     threshold_proba_in_unit) setosa_sample _ _ eq_refl)
    as (a & ps & pred & pp & row & _ & _ & _ & _ & _ & _ & Hunit).
  exact Hunit.
Defined.

(** C9 on the scenario of the spec: the features come back unchanged. *)
Lemma features_echoed_witness :
  exists resp s',
    predict setosa_sample threshold_store = (Respond resp, s') /\
    prediction resp = "setosa" /\
    features resp =
      [("sepal_length", 5.1%float); ("sepal_width", 3.5%float);
       ("petal_length", 1.4%float); ("petal_width", 0.2%float)].
Proof.
  eexists _, _. split; [reflexivity|]. split; [reflexivity|].
  exact (proj1 (features_echoed threshold_store) setosa_sample _ _ eq_refl).
Defined.

(** C5 on the request bodies of the tests: a negative field, missing
    fields, and a batch whose second item has a negative field. *)
Lemma bad_request_rejected_witness :
  (exists errs, errs <> [] /\
     post_predict negative_request threshold_store =
       (unprocessable errs, threshold_store)) /\
  (exists errs, errs <> [] /\
     post_predict incomplete_request threshold_store =
       (unprocessable errs, threshold_store)) /\
  (exists errs, errs <> [] /\
     post_predict_batch [raw_of setosa_sample; negative_request] threshold_store =
       (unprocessable errs, threshold_store)).
Proof.
  destruct (bad_request_rejected threshold_store) as [Hone Hmany].
  split; [|split].
  - destruct (Hone negative_request) as (errs & Hne & _ & H422).
    { left. right. exists (-1)%float. split; reflexivity. }
    exists errs. split; [exact Hne | apply H422; reflexivity].
  - destruct (Hone incomplete_request) as (errs & Hne & _ & H422).
    { right. right. left. left. reflexivity. }
    exists errs. split; [exact Hne | apply H422; reflexivity].
  - destruct (Hmany [raw_of setosa_sample; negative_request])
      as (errs & Hne & _ & H422).
    { apply Exists_cons_tl, Exists_cons_hd.
      left. right. exists (-1)%float. split; reflexivity. }
    exists errs. split; [exact Hne|]. apply H422.
    repeat constructor.
Defined.

(** C5 as stated fails: a field of minus infinity is below zero, the body
    is rejected, and the rejection is not the 422 validation error: the
    error report echoes the value and cannot be rendered, so the request
    ends with a [ValueError]; the store is untouched. *)
Lemma infinite_field_escapes :
  PrimFloat.ltb neg_infinity 0%float = true /\
  post_predict infinite_request threshold_store =
    (Escape ValueError, threshold_store) /\
  post_predict_batch [raw_of setosa_sample; infinite_request] threshold_store =
    (Escape ValueError, threshold_store).
Proof. repeat split. Qed.

(** C10 on metadata that has the model type only: the other fields are
    [None]. *)
Lemma model_info_total_witness :
  get_model_info sparse_store =
    (Respond {| model_type := JStr "RandomForestClassifier";
                feature_names := JNull;
                target_names := JNull;
                model_parameters :=
                  {| n_estimators := JNull; max_depth := JNull |} |},
     sparse_store).
Proof.
  exact (proj1 (model_info_total sparse_store
                  [("model_type", JStr "RandomForestClassifier")] eq_refl)).
Defined.

(** C10 as stated fails: a metadata file holding a JSON list is loaded as
    it is, the metadata is then present (not [None]), and [get_model_info]
    does not answer: [metadata.get] raises [AttributeError]. *)
Lemma list_metadata_breaks_model_info :
  metadata (run [OpLoad list_metadata] initial) =
    JArr [JStr "setosa"; JStr "versicolor"] /\
  fst (get_model_info (run [OpLoad list_metadata] initial)) =
    Escape AttributeError.
Proof. split; reflexivity. Qed.

(** * Further properties of the handlers *)

Section Handlers.
Context {A : Type} {artifact : Artifact A}.
Implicit Types (s : State A) (f : IrisFeatures) (fs : list IrisFeatures).

Lemma guard500_kinds {X : Type} (prefix : string) (c : pyres X) :
  match guard500 prefix c with
  | Respond _ => True
  | Abort h => status_code h = 500
  | Escape _ => False
  end.
Proof. destruct c; simpl; auto. Qed.

(** X1.  [predict] and [predict_batch] catch every exception: they respond, or
    abort with 503 exactly when no artifact is loaded, or abort with 500
    with an artifact loaded; no exception escapes them. *)
Theorem prediction_reply_kinds f fs s :
  match fst (predict f s) with
  | Respond _ => loaded s = true
  | Abort h =>
      (status_code h = 503 /\ loaded s = false) \/
      (status_code h = 500 /\ loaded s = true)
  | Escape _ => False
  end /\
  match fst (predict_batch fs s) with
  | Respond _ => loaded s = true
  | Abort h =>
      (status_code h = 503 /\ loaded s = false) \/
      (status_code h = 500 /\ loaded s = true)
  | Escape _ => False
  end.
Proof.
  unfold loaded. destruct (model s) as [a|] eqn:Hm.
  - rewrite (predict_reply f s a Hm), (predict_batch_reply fs s a Hm).
    split.
    + match goal with |- context [guard500 ?p ?c] =>
        pose proof (guard500_kinds p c) as Hk; destruct (guard500 p c) end;
        auto.
    + match goal with |- context [guard500 ?p ?c] =>
        pose proof (guard500_kinds p c) as Hk; destruct (guard500 p c) end;
        auto.
  - rewrite (predict_unloaded f s Hm), (predict_batch_unloaded fs s Hm).
    simpl. auto.
Qed.

(** X2.  [predict_batch] makes one [predict] call on the whole matrix and, only
    when that returned, one [predict_proba] call on the same matrix, whatever
    the number of items; nothing else reaches the artifact. *)
Theorem predict_batch_calls fs s (a : A) :
  model s = Some a ->
  invocations (snd (predict_batch fs s)) =
  (invocations s ++
   batch_calls (map feature_values fs)
     (fst (model_predict a (map feature_values fs))))%list.
Proof.
  intros Hm. unfold_handlers. rewrite Hm. simpl.
  destruct (model_predict a (map feature_values fs)) as [[ps|e] a1]; simpl;
    [|reflexivity].
  destruct (model_predict_proba a1 (map feature_values fs)) as [[pp|e] a2];
    simpl; rewrite <- ?app_assoc; reflexivity.
Qed.

(** X3.  [predict] calls [predict] on the one-row matrix of the request and,
    only when that returned an answer with a row 0, [predict_proba] on the
    same matrix. *)
Theorem predict_calls f s (a : A) :
  model s = Some a ->
  invocations (snd (predict f s)) =
  (invocations s ++
   single_calls [feature_values f]
     (fst (model_predict a [feature_values f])))%list.
Proof.
  intros Hm. unfold_handlers. unfold single_calls. rewrite Hm. simpl.
  destruct (model_predict a [feature_values f]) as [[ps|e] a1]; simpl;
    [|reflexivity].
  destruct (py_index ps 0) as [pred|e]; simpl; [|reflexivity].
  destruct (model_predict_proba a1 [feature_values f]) as [[pp|e] a2];
    simpl; [|rewrite <- app_assoc; reflexivity].
  repeat (try (simpl; rewrite <- ?app_assoc; reflexivity); case_call).
Qed.

(** X4.  An exception raised by the artifact, in [predict] or in
    [predict_proba], aborts the request with status 500 and that exception
    as the cause, for the single and for the batch handler. *)
Theorem artifact_failure_reported f fs s (a : A) (e : exn) :
  model s = Some a ->
  (fst (model_predict a [feature_values f]) = Raise e ->
   fst (predict f s) =
     Abort {| status_code := 500;
              http_detail := Caused "Prediction failed: " e |}) /\
  (forall ps pred,
     fst (model_predict a [feature_values f]) = Ret ps ->
     py_index ps 0 = Ret pred ->
     fst (model_predict_proba (snd (model_predict a [feature_values f]))
            [feature_values f]) = Raise e ->
     fst (predict f s) =
       Abort {| status_code := 500;
                http_detail := Caused "Prediction failed: " e |}) /\
  (fst (model_predict a (map feature_values fs)) = Raise e ->
   fst (predict_batch fs s) =
     Abort {| status_code := 500;
              http_detail := Caused "Batch prediction failed: " e |}) /\
  (forall ps,
     fst (model_predict a (map feature_values fs)) = Ret ps ->
     fst (model_predict_proba (snd (model_predict a (map feature_values fs)))
            (map feature_values fs)) = Raise e ->
     fst (predict_batch fs s) =
       Abort {| status_code := 500;
                http_detail := Caused "Batch prediction failed: " e |}).
Proof.
  intros Hm.
  rewrite (predict_reply f s a Hm), (predict_batch_reply fs s a Hm). cbv zeta.
  repeat split.
  - intros ->. reflexivity.
  - intros ps pred -> Hpred ->. cbn [pybind]. rewrite Hpred. reflexivity.
  - intros ->. reflexivity.
  - intros ps -> ->. reflexivity.
Qed.

(** X5.  The batch loop indexes the request list with the row number: when both
    answers of the artifact have more rows than the request has items, the
    batch aborts with status 500 instead of responding. *)
Theorem surplus_rows_abort fs s (a : A) ps pp :
  model s = Some a ->
  fst (model_predict a (map feature_values fs)) = Ret ps ->
  fst (model_predict_proba (snd (model_predict a (map feature_values fs)))
         (map feature_values fs)) = Ret pp ->
  (length fs < length ps)%nat ->
  (length fs < length pp)%nat ->
  exists e,
    fst (predict_batch fs s) =
      Abort {| status_code := 500;
               http_detail := Caused "Batch prediction failed: " e |}.
Proof.
  intros Hm Hps Hpp Hlps Hlpp.
  rewrite (predict_batch_reply fs s a Hm). cbv zeta.
  rewrite Hps. cbn [pybind]. rewrite Hpp. cbn [pybind].
  destruct (format_results (metadata s) fs 0 (zip ps pp)) as [rs|e] eqn:Hfmt;
    [|simpl; eauto].
  exfalso.
  apply format_results_rows in Hfmt as [_ Hrows].
  assert (length fs < length (zip ps pp))%nat as Hi
    by (rewrite length_zip; lia).
  apply lookup_lt_is_Some_2 in Hi as [[pred prob] Hrow].
  destruct (Hrows _ pred prob Hrow) as (r & f & _ & Hf & _).
  apply lookup_lt_Some in Hf. simpl in Hf. lia.
Qed.

(** X6.  The empty batch: when the artifact answers no rows to the empty matrix,
    in either of its answers, [predict_batch] responds with no predictions. *)
Theorem predict_batch_empty s (a : A) ps pp :
  model s = Some a ->
  fst (model_predict a []) = Ret ps ->
  fst (model_predict_proba (snd (model_predict a [])) []) = Ret pp ->
  ps = [] \/ pp = [] ->
  fst (predict_batch [] s) = Respond [].
Proof.
  intros Hm Hps Hpp Hnone.
  rewrite (predict_batch_reply [] s a Hm). cbv zeta. simpl map.
  rewrite Hps. cbn [pybind]. rewrite Hpp. cbn [pybind].
  destruct Hnone as [-> | ->]; [reflexivity|].
  destruct ps; reflexivity.
Qed.

End Handlers.

(** * Validation accepts exactly the well-formed requests *)

Lemma check_field_passes (item : option nat) (name : string) (v : option float) :
  check_field item name v = [] <->
  exists x, v = Some x /\ PrimFloat.leb 0%float x = true.
Proof.
  unfold check_field. destruct v as [x|]; [|split; [discriminate|]].
  - destruct (PrimFloat.leb 0%float x) eqn:Hx; split.
    + eauto.
    + reflexivity.
    + discriminate.
    + intros (y & [= <-] & Hy). congruence.
  - intros (x & Hx & _). discriminate.
Qed.

Lemma field_errors_none (item : option nat) (raw : RawFeatures) :
  field_errors item raw = [] <->
  exists f, raw = raw_of f /\ nonnegative f.
Proof.
  unfold field_errors. split.
  - intros Hnil.
    apply app_eq_nil in Hnil as [H1 Hnil].
    apply app_eq_nil in Hnil as [H2 Hnil].
    apply app_eq_nil in Hnil as [H3 H4].
    apply check_field_passes in H1 as (a & Ha & Hpa).
    apply check_field_passes in H2 as (b & Hb & Hpb).
    apply check_field_passes in H3 as (c & Hc & Hpc).
    apply check_field_passes in H4 as (d & Hd & Hpd).
    exists {| sepal_length := a; sepal_width := b;
              petal_length := c; petal_width := d |}.
    split; [|repeat split; assumption].
    destruct raw; simpl in *; subst; reflexivity.
  - intros (f & -> & Ha & Hb & Hc & Hd). simpl.
    rewrite Ha, Hb, Hc, Hd. reflexivity.
Qed.

Lemma raw_of_inj (f g : IrisFeatures) : raw_of f = raw_of g -> f = g.
Proof.
  destruct f, g. unfold raw_of. simpl. intros [= -> -> -> ->]. reflexivity.
Qed.

Lemma validate_cases (item : option nat) (raw : RawFeatures) :
  (exists f, raw = raw_of f /\ nonnegative f /\
     field_errors item raw = [] /\ validate item raw = inr f) \/
  (field_errors item raw <> [] /\
     validate item raw = inl (field_errors item raw)).
Proof.
  destruct (field_errors item raw) as [|e errs] eqn:Herrs.
  - left. pose proof Herrs as Hnone.
    apply field_errors_none in Hnone as (f & -> & Hok).
    exists f. repeat split; try apply Hok.
    unfold validate. rewrite Herrs. destruct f; reflexivity.
  - right. split; [discriminate|].
    unfold validate. rewrite Herrs. reflexivity.
Qed.

(** X7.  [IrisFeatures] accepts a request body exactly when all four fields are
    present and none is below zero, and hands the handler the same four
    numbers. *)
Theorem validate_accepts (item : option nat) (raw : RawFeatures) (f : IrisFeatures) :
  validate item raw = inr f <-> raw = raw_of f /\ nonnegative f.
Proof.
  destruct (validate_cases item raw)
    as [(g & -> & Hok & _ & Hg) | (Hne & Hbad)]; split.
  - rewrite Hg. intros [= <-]. auto.
  - intros [Heq _]. rewrite Hg. f_equal. apply raw_of_inj, Heq.
  - rewrite Hbad. discriminate.
  - intros [-> Hok]. exfalso. apply Hne.
    apply field_errors_none. eauto.
Qed.

Lemma validate_list_cases (raws : list RawFeatures) :
  forall i,
    (exists fs, raws = map raw_of fs /\ Forall nonnegative fs /\
       list_errors i raws = [] /\ validate_list i raws = inr fs) \/
    (list_errors i raws <> [] /\
       validate_list i raws = inl (list_errors i raws)).
Proof.
  induction raws as [|raw rest IH]; intros i; simpl.
  - left. exists []. auto.
  - destruct (validate_cases (Some i) raw)
      as [(f & -> & Hok & Hnone & ->) | (Hne & ->)];
      destruct (IH (S i)) as [(fs & -> & Hoks & Hnones & ->) | (Hnes & ->)].
    + left. exists (f :: fs). rewrite Hnone, Hnones. auto.
    + right. rewrite Hnone. simpl. auto.
    + right. rewrite Hnones, app_nil_r. auto.
    + right. split; [|reflexivity].
      intros Hnil. apply app_eq_nil in Hnil as [? _]. auto.
Qed.

(** X8.  A list body is accepted exactly when every item is well formed, and the
    handler then gets the items in the order of the body. *)
Theorem validate_list_accepts (i : nat) (raws : list RawFeatures)
    (fs : list IrisFeatures) :
  validate_list i raws = inr fs <->
  raws = map raw_of fs /\ Forall nonnegative fs.
Proof.
  destruct (validate_list_cases raws i)
    as [(gs & -> & Hoks & _ & Hgs) | (Hne & Hbad)]; split.
  - rewrite Hgs. intros [= <-]. auto.
  - intros [Heq _]. rewrite Hgs. f_equal.
    clear -Heq. revert fs Heq.
    induction gs as [|g gs IH]; intros [|f fs] Heq; try discriminate; auto.
    cbn [map] in Heq.
    assert (raw_of g = raw_of f /\ map raw_of gs = map raw_of fs)
      as [Hhead Hrest] by (split; congruence).
    f_equal; [apply raw_of_inj, Hhead | auto].
  - rewrite Hbad. discriminate.
  - intros [-> Hoks]. exfalso. apply Hne.
    clear -Hoks. revert i.
    induction Hoks as [|f fs Hok _ IH]; intros i; simpl; [reflexivity|].
    rewrite IH, app_nil_r. apply field_errors_none. eauto.
Qed.

(** * The store across loads and requests *)

Section Store.
Context {A : Type} {artifact : Artifact A}.
Implicit Types (s : State A) (f : IrisFeatures) (fs : list IrisFeatures).

Lemma step_request_store (o : op A) s :
  is_request o = true ->
  metadata (step o s) = metadata s /\ loaded (step o s) = loaded s.
Proof.
  intros Hreq. destruct o as [d|raw|raws| |]; try discriminate Hreq; simpl.
  - unfold post_predict.
    destruct (validate None raw) as [errs|f]; simpl;
      [split; reflexivity | apply predict_store].
  - unfold post_predict_batch.
    destruct (validate_list 0 raws) as [errs|fs]; simpl;
      [split; reflexivity | apply predict_batch_store].
  - split; reflexivity.
  - unfold get_model_info.
    destruct (metadata s) eqn:Hmd; simpl; rewrite ?Hmd; split; reflexivity.
Qed.

Lemma load_model_keeps_loaded (d : Disk A) s :
  loads_object d = true ->
  loaded s = true -> loaded (snd (load_model d s)) = true.
Proof.
  intros Hobj Hl. unfold load_model. unfold loads_object in Hobj.
  destruct (model_path_exists d); simpl; [|exact Hl].
  destruct (joblib_load d) as [[m|]|e]; simpl;
    [|discriminate Hobj|exact Hl].
  destruct (metadata_path_exists d); [destruct (json_load d)|]; reflexivity.
Qed.

(** X9.  An artifact stays loaded: once one is loaded, no sequence of
    requests and of loads, failed or not, leaves the store without one, as
    long as no artifact file of those loads unpickles to [None]. *)
Theorem loaded_for_good (ops : list (op A)) s :
  forallb object_op ops = true ->
  loaded s = true -> loaded (run ops s) = true.
Proof.
  revert s. induction ops as [|o ops IH]; intros s Hobj Hl; simpl; [exact Hl|].
  simpl in Hobj. apply andb_prop in Hobj as [Ho Hops].
  apply IH; [exact Hops|]. destruct o as [d|raw|raws| |].
  - apply load_model_keeps_loaded; assumption.
  - destruct (step_request_store (OpPredict raw) s eq_refl) as [_ ->]. exact Hl.
  - destruct (step_request_store (OpPredictBatch raws) s eq_refl) as [_ ->].
    exact Hl.
  - exact Hl.
  - destruct (step_request_store OpModelInfo s eq_refl) as [_ ->]. exact Hl.
Qed.

(** Requests never write the globals: over any sequence of requests the
    metadata is the same value and an artifact is loaded exactly if one was
    before. *)
Lemma requests_keep_store (ops : list (op A)) s :
  forallb is_request ops = true ->
  metadata (run ops s) = metadata s /\ loaded (run ops s) = loaded s.
Proof.
  revert s. induction ops as [|o ops IH]; intros s Hreq; simpl; [auto|].
  simpl in Hreq. apply andb_prop in Hreq as [Ho Hops].
  destruct (IH (step o s) Hops) as [-> ->].
  apply step_request_store, Ho.
Qed.

(** X10.  Loading twice from the same directory is loading once. *)
Theorem load_model_idempotent (d : Disk A) s :
  load_model d (snd (load_model d s)) = load_model d s.
Proof.
  unfold load_model.
  destruct (model_path_exists d); simpl; [|reflexivity].
  destruct (joblib_load d) as [m|e]; simpl; [|reflexivity].
  destruct (metadata_path_exists d); simpl; [|reflexivity].
  destruct (json_load d) as [j|e]; reflexivity.
Qed.

(** X11.  A startup whose load does not get an artifact (no artifact file, or
    [joblib.load] raises) leaves the service unready for good: after any
    sequence of requests both prediction handlers abort with 503,
    [health_check] reports unhealthy and [get_model_info] aborts with 503. *)
Theorem failed_startup_stays_unready (d : Disk A) (ops : list (op A)) f fs :
  model_path_exists d = false \/ (exists e, joblib_load d = Raise e) ->
  forallb is_request ops = true ->
  let s := run ops (startup_event d initial) in
  fst (predict f s) =
    Abort {| status_code := 503; http_detail := Text "Model not loaded" |} /\
  fst (predict_batch fs s) =
    Abort {| status_code := 503; http_detail := Text "Model not loaded" |} /\
  fst (health_check s) =
    Respond {| status := "unhealthy"; model_loaded := false;
               model_info := None |} /\
  fst (get_model_info s) =
    Abort {| status_code := 503;
             http_detail := Text "Model metadata not available" |}.
Proof.
  intros Hfail Hreq s.
  assert (startup_event d initial = initial) as Hstart.
  { unfold startup_event, load_model.
    destruct Hfail as [Hmissing | [e Hraise]].
    - rewrite Hmissing. reflexivity.
    - rewrite Hraise. destruct (model_path_exists d); reflexivity. }
  subst s. rewrite Hstart.
  destruct (requests_keep_store ops initial Hreq) as [Hmd Hl].
  simpl in Hmd, Hl. set (s := run ops initial) in *.
  assert (model s = None) as Hm
    by (unfold loaded in Hl; destruct (model s);
        [discriminate Hl | reflexivity]).
  split; [rewrite (predict_unloaded f s Hm); reflexivity|].
  split; [rewrite (predict_batch_unloaded fs s Hm); reflexivity|].
  split.
  - unfold health_check, loaded. rewrite Hmd, Hm. reflexivity.
  - unfold get_model_info. rewrite Hmd. reflexivity.
Qed.

End Store.

(** * Metadata: what the trainer writes, and what breaks the reporters *)

Lemma py_index_inside {X : Type} (l : list X) (i : Z) :
  - Z.of_nat (length l) <= i < Z.of_nat (length l) ->
  exists x,
    l !! Z.to_nat (i mod Z.of_nat (length l)) = Some x /\
    py_index l i = Ret x.
Proof.
  intros Hin. unfold py_index.
  set (n := Z.of_nat (length l)) in *.
  assert ((if i <? 0 then i + n else i) = i mod n) as ->.
  { destruct (Z.ltb_spec i 0) as [Hneg|Hpos].
    - rewrite <- (Z_mod_plus_full i 1 n), Z.mul_1_l.
      symmetry. apply Z.mod_small. lia.
    - symmetry. apply Z.mod_small. lia. }
  assert (0 <= i mod n < n) as Hj by (apply Z.mod_pos_bound; lia).
  destruct (Z.leb_spec 0 (i mod n)) as [_|?]; [|lia].
  destruct (Z.ltb_spec (i mod n) n) as [_|?]; [|lia]. simpl.
  destruct (lookup_lt_is_Some_2 l (Z.to_nat (i mod n))) as [x Hx];
    [subst n; lia|].
  exists x. rewrite Hx. auto.
Qed.

(** X12.  With [target_names] a list of [n] names, every class index from [-n] to
    [n - 1] gets a label: index [i] is labelled with the name at position
    [i mod n], so a negative index counts from the end of the list. *)
Theorem label_inside_range (md : json) (names : list json) (i : Z) :
  has_target_names md names ->
  - Z.of_nat (length names) <= i < Z.of_nat (length names) ->
  exists label,
    names !! Z.to_nat (i mod Z.of_nat (length names)) = Some label /\
    predicted_class md i = Ret label.
Proof.
  intros Hnames Hin.
  rewrite (predicted_class_named md names i Hnames).
  apply py_index_inside, Hin.
Qed.

Section Metadata.
Context {A : Type} {artifact : Artifact A}.
Implicit Types (s : State A) (f : IrisFeatures).

Lemma load_model_reads (d : Disk A) s (m : option A) (j : json) :
  model_path_exists d = true ->
  joblib_load d = Ret m ->
  metadata_path_exists d = true ->
  json_load d = Ret j ->
  startup_event d s =
    {| model := m; metadata := j; invocations := invocations s |}.
Proof.
  intros He Hl Hm Hj. unfold startup_event, load_model.
  rewrite He, Hl, Hm, Hj. reflexivity.
Qed.

(** X13.  A service started on the files [save_model] wrote reports what the
    trainer saved: [get_model_info] answers with the two name lists, the
    model type and the two hyperparameters, every label is a string, and
    class index [i] is labelled with the [i]-th target name. *)
Theorem trainer_metadata_served (d : Disk A) s (m : option A)
    (fnames tnames : list string) (n : Z) (depth : option Z) :
  model_path_exists d = true ->
  joblib_load d = Ret m ->
  metadata_path_exists d = true ->
  json_load d = Ret (save_model_metadata fnames tnames n depth) ->
  fst (get_model_info (startup_event d s)) =
    Respond {| model_type := JStr "RandomForestClassifier";
               feature_names := JArr (map JStr fnames);
               target_names := JArr (map JStr tnames);
               model_parameters :=
                 {| n_estimators := JInt n;
                    max_depth := match depth with
                                 | Some k => JInt k
                                 | None => JNull
                                 end |} |} /\
  string_target_names (metadata (startup_event d s)) /\
  forall (i : nat) (name : string),
    tnames !! i = Some name ->
    predicted_class (metadata (startup_event d s)) (Z.of_nat i) =
      Ret (JStr name).
Proof.
  intros He Hl Hm Hj.
  rewrite (load_model_reads d s m _ He Hl Hm Hj). simpl.
  split; [reflexivity|]. split.
  - intros kvs v [= <-] Hv. simpl in Hv. injection Hv as <-. eauto.
  - intros i name Hi.
    rewrite (predicted_class_named _ (map JStr tnames) _);
      [|eexists; split; reflexivity].
    apply py_index_of_nat. rewrite list_lookup_fmap, Hi. reflexivity.
Qed.

(** X14.  A metadata file whose top-level JSON value is not an object breaks
    the reporters once loaded: [get_model_info] lets an [AttributeError]
    escape unless the value is [null], and so does [health_check] when the
    value is truthy. *)
Theorem non_object_metadata_escapes (d : Disk A) s (m : option A) (j : json) :
  model_path_exists d = true ->
  joblib_load d = Ret m ->
  metadata_path_exists d = true ->
  json_load d = Ret j ->
  not_object j ->
  (j <> JNull ->
   fst (get_model_info (startup_event d s)) = Escape AttributeError) /\
  (truthy j = true ->
   fst (health_check (startup_event d s)) = Escape AttributeError).
Proof.
  intros He Hl Hm Hj Hno.
  rewrite (load_model_reads d s m j He Hl Hm Hj).
  unfold get_model_info, health_check. simpl.
  split.
  - intros Hnull. destruct j; try reflexivity; [congruence | contradiction].
  - intros Ht. rewrite Ht. destruct j; try reflexivity; try discriminate.
    contradiction.
Qed.

(** X15.  [health_check] and [predict] agree on readiness: whenever
    [health_check] responds, it reports [model_loaded] false exactly when
    [predict] aborts with 503, and [status] is ["healthy"] exactly when
    [model_loaded] is true. *)
Theorem health_agrees_with_predict s f (h : HealthResponse) :
  fst (health_check s) = Respond h ->
  (model_loaded h = false <->
   fst (predict f s) =
     Abort {| status_code := 503; http_detail := Text "Model not loaded" |}) /\
  (status h = "healthy" <-> model_loaded h = true).
Proof.
  unfold health_check. simpl.
  match goal with |- escape (pybind ?c _) = _ -> _ => destruct c as [info|e] end;
    simpl; [|discriminate].
  intros [= <-]. simpl. unfold loaded.
  destruct (model s) as [a|] eqn:Hm.
  - split; [|split; auto].
    split; [discriminate|].
    rewrite (predict_reply f s a Hm).
    match goal with |- guard500 ?p ?c = _ -> _ =>
      pose proof (guard500_kinds p c) as Hk;
      destruct (guard500 p c) as [x|h0|e]
    end; intros Heq;
      [discriminate Heq
      | injection Heq as ->; simpl in Hk; discriminate Hk
      | discriminate Heq].
  - rewrite (predict_unloaded f s Hm). simpl.
    split; [split; auto|]. split; discriminate.
Qed.

End Metadata.

(** * The further properties at concrete stores *)

(** A batch of two on the threshold classifier: two calls in all. *)
Lemma predict_batch_calls_witness :
  invocations (snd (predict_batch [setosa_sample; versicolor_sample]
                      threshold_store)) =
  [CallPredict [feature_values setosa_sample; feature_values versicolor_sample];
   CallPredictProba
     [feature_values setosa_sample; feature_values versicolor_sample]].
Proof.
  exact (predict_batch_calls [setosa_sample; versicolor_sample]
           threshold_store {| served := 0 |} eq_refl).
Defined.

(** When [predict] raises, [predict_proba] is not called. *)
Lemma predict_calls_witness :
  invocations (snd (predict setosa_sample failing_store)) =
  [CallPredict [feature_values setosa_sample]].
Proof.
  exact (predict_calls setosa_sample failing_store _ eq_refl).
Defined.

Lemma artifact_failure_reported_witness :
  fst (predict setosa_sample failing_store) =
    Abort {| status_code := 500;
             http_detail :=
               Caused "Prediction failed: " (OtherError "bad input shape") |} /\
  fst (predict_batch [setosa_sample] failing_store) =
    Abort {| status_code := 500;
             http_detail :=
               Caused "Batch prediction failed: "
                 (OtherError "bad input shape") |}.
Proof.
  destruct (artifact_failure_reported setosa_sample [setosa_sample]
              failing_store _ (OtherError "bad input shape") eq_refl)
    as (Hone & _ & Hmany & _).
  split; [apply Hone | apply Hmany]; reflexivity.
Defined.

(** Two rows answered to a batch of one. *)
Lemma surplus_rows_abort_witness :
  exists e,
    fst (predict_batch [setosa_sample] two_row_store) =
      Abort {| status_code := 500;
               http_detail := Caused "Batch prediction failed: " e |}.
Proof.
  apply (surplus_rows_abort (artifact := canned_artifact)
           [setosa_sample] two_row_store _
           [0; 1] [[1%float; 0%float]; [0%float; 1%float]]
           eq_refl eq_refl eq_refl); simpl; lia.
Defined.

Lemma predict_batch_empty_witness :
  fst (predict_batch [] threshold_store) = Respond [].
Proof.
  apply (predict_batch_empty (artifact := threshold_artifact)
           threshold_store {| served := 0 |} [] []
           eq_refl eq_refl eq_refl).
  left. reflexivity.
Defined.

(** All fields zero is a valid request. *)
Lemma validate_accepts_witness :
  validate None (raw_of zero_sample) = inr zero_sample.
Proof.
  apply (proj2 (validate_accepts None (raw_of zero_sample) zero_sample)).
  split; [reflexivity|]. repeat split; reflexivity.
Defined.

Lemma validate_list_accepts_witness :
  validate_list 0 [raw_of zero_sample; raw_of setosa_sample] =
    inr [zero_sample; setosa_sample].
Proof.
  apply (proj2 (validate_list_accepts 0 [raw_of zero_sample; raw_of setosa_sample]
                  [zero_sample; setosa_sample])).
  split; [reflexivity|].
  repeat constructor; reflexivity.
Defined.

(** A failed reload after a good load does not unload the artifact. *)
Lemma loaded_for_good_witness :
  loaded (run [OpLoad untrained; OpHealth; OpLoad broken_metadata]
            one_row_store) = true.
Proof.
  exact (loaded_for_good [OpLoad untrained; OpHealth; OpLoad broken_metadata]
           one_row_store eq_refl eq_refl).
Defined.

Lemma failed_startup_stays_unready_witness :
  fst (predict setosa_sample
         (run [OpHealth; OpPredict (raw_of setosa_sample)]
            (startup_event untrained initial))) =
    Abort {| status_code := 503; http_detail := Text "Model not loaded" |}.
Proof.
  exact (proj1 (failed_startup_stays_unready untrained
                  [OpHealth; OpPredict (raw_of setosa_sample)]
                  setosa_sample [] (or_introl eq_refl) eq_refl)).
Defined.

(** Class index -1 is labelled with the last of the three names. *)
Lemma label_inside_range_witness :
  exists label,
    [JStr "setosa"; JStr "versicolor"; JStr "virginica"] !! 2%nat = Some label /\
    predicted_class iris_metadata (-1) = Ret label.
Proof.
  apply (label_inside_range iris_metadata
           [JStr "setosa"; JStr "versicolor"; JStr "virginica"] (-1)).
  - eexists. split; reflexivity.
  - simpl. lia.
Defined.

(** The metadata of the trained iris classifier: 100 estimators of depth
    10, as [train_model] sets them. *)
Lemma trainer_metadata_served_witness :
  iris_metadata =
    save_model_metadata
      ["sepal length (cm)"; "sepal width (cm)";
       "petal length (cm)"; "petal width (cm)"]
      ["setosa"; "versicolor"; "virginica"] 100 (Some 10) /\
  predicted_class (metadata (startup_event (trained mock) initial)) 1 =
    Ret (JStr "versicolor").
Proof.
  split; [reflexivity|].
  exact (proj2 (proj2 (trainer_metadata_served (trained mock) initial (Some mock)
                         ["sepal length (cm)"; "sepal width (cm)";
                          "petal length (cm)"; "petal width (cm)"]
                         ["setosa"; "versicolor"; "virginica"] 100 (Some 10)
                         eq_refl eq_refl eq_refl eq_refl))
           1%nat "versicolor" eq_refl).
Defined.

Lemma non_object_metadata_escapes_witness :
  fst (get_model_info (startup_event list_metadata initial)) =
    Escape AttributeError /\
  fst (health_check (startup_event list_metadata initial)) =
    Escape AttributeError.
Proof.
  destruct (non_object_metadata_escapes list_metadata initial (Some mock)
              (JArr [JStr "setosa"; JStr "versicolor"])
              eq_refl eq_refl eq_refl eq_refl I) as [Hinfo Hhealth].
  split; [apply Hinfo; discriminate | apply Hhealth; reflexivity].
Defined.

Lemma health_agrees_with_predict_witness :
  exists h,
    fst (health_check threshold_store) = Respond h /\
    model_loaded h = true /\ status h = "healthy".
Proof.
  eexists. split; [reflexivity|]. split; [reflexivity|].
  apply (proj2 (health_agrees_with_predict threshold_store setosa_sample _
                  eq_refl)).
  reflexivity.
Defined.
